(** * Zephyr for JIRA client: a shallow embedding of [src/zephyr/zephyr.py]

    The module is a thin client over an HTTP API.  Everything it does is
    a sequence of calls into three outside libraries ([requests],
    [jira], the server behind them) plus a little control flow of its
    own.  The embedding therefore has three layers:

    - the Python values the module handles (strings, [bytes], parsed
      JSON, exceptions, [str.format]);
    - the outside world, a record of oracles [World], and the log of the
      calls made into it ([history]);
    - the methods of class [Zephyr], written in a state-and-exception
      monad over the client object and that log. *)

From Stdlib Require Import String Ascii List ZArith Bool Lia.
From Stdlib Require Import DecimalString.
Import ListNotations.
Local Open Scope string_scope.
Local Open Scope Z_scope.
Set Warnings "-register-all".

(** ** Python values *)

(** [bytes] is a type of its own in Python 3: [requests.Response.content]
    is [bytes], the module's literals are [str]. *)
Inductive bytes : Type :=
| Bytes (raw : string).

(** What [json.loads] builds.  [JNull] is Python's [None]; a dict is kept
    as the list of its items. *)
Inductive json_value : Type :=
| JNull
| JBool (b : bool)
| JNum (z : Z)
| JStr (s : string)
| JList (items : list json_value)
| JDict (items : list (string * json_value)).

(** Truth value of an object in a condition ([if error:]). *)
Definition py_truthy (v : json_value) : bool :=
  match v with
  | JNull => false
  | JBool b => b
  | JNum z => negb (z =? 0)
  | JStr s => negb (String.eqb s EmptyString)
  | JList l => match l with [] => false | _ :: _ => true end
  | JDict l => match l with [] => false | _ :: _ => true end
  end.

Fixpoint assoc_get (key : string) (items : list (string * json_value))
  : option json_value :=
  match items with
  | [] => None
  | (k, v) :: rest => if String.eqb k key then Some v else assoc_get key rest
  end.

(** [requests.Response] as the module uses it: the attributes
    [status_code] and [content], and what the method [json()] gives
    ([None] when the body is not JSON and [json()] raises). *)
Record Response : Type := mkResponse {
  status_code : Z;
  content : bytes;
  json : option json_value
}.

(** [response.status_code = 401]: assignment to the attribute. *)
Definition set_status_code (r : Response) (c : Z) : Response :=
  {| status_code := c; content := content r; json := json r |}.

(** The exceptions that can leave the module.  [JIRAError] carries the
    status code and response it was built with; [AttributeError] the
    type of the object and the attribute that was looked up on it. *)
Inductive py_exn : Type :=
| JIRAError (status : option Z) (response : option Response)
| AttributeError (type_name attr : string)
| TypeError
| ValueError
| IndexError
| ConnectionError.

Definition is_JIRAError (e : py_exn) : bool :=
  match e with
  | JIRAError _ _ => true
  | _ => false
  end.

Inductive result (A : Type) : Type :=
| Ok (a : A)
| Raise (e : py_exn).
Arguments Ok {A} a.
Arguments Raise {A} e.

(** [str(n)] for an integer. *)
Definition py_str (n : Z) : string := NilZero.string_of_int (Z.to_int n).

(** [template.format(arg, ...)] for templates whose replacement fields are
    all the auto-numbered [{}]: each field takes the next positional
    argument, inserted as it is; running out of arguments is
    [IndexError]; surplus arguments are ignored.  Doubled braces are
    literal braces; any other brace is reported as [ValueError] (the
    templates of this module have none). *)
Fixpoint py_format (template : string) (args : list string) : result string :=
  match template with
  | EmptyString => Ok EmptyString
  | String "{" (String "}" rest) =>
      match args with
      | [] => Raise IndexError
      | a :: args' =>
          match py_format rest args' with
          | Ok s => Ok (a ++ s)
          | Raise e => Raise e
          end
      end
  | String "{" (String "{" rest) =>
      match py_format rest args with
      | Ok s => Ok (String "{" s)
      | Raise e => Raise e
      end
  | String "}" (String "}" rest) =>
      match py_format rest args with
      | Ok s => Ok (String "}" s)
      | Raise e => Raise e
      end
  | String "{" _ => Raise ValueError
  | String "}" _ => Raise ValueError
  | String c rest =>
      match py_format rest args with
      | Ok s => Ok (String c s)
      | Raise e => Raise e
      end
  end.

(** [needle in haystack] with a [str] on the left and [bytes] on the
    right: Python 3 refuses the mix with
    [TypeError: a bytes-like object is required, not 'str']. *)
Definition py_str_in_bytes (needle : string) (haystack : bytes) : result bool :=
  Raise TypeError.

(** ** The resources and the configuration

    [resources.py] and [config.py] are imported by the module but are
    not among the sources at hand; only the attributes the module reads
    or writes are modelled. *)

(** Modelled from the spec: the configuration constants of [config.py]
    (server base URL, default user and password, TLS-verify flag and
    default timeout), taken as parameters. *)
Record Config : Type := mkConfig {
  SERVER : string;
  USER : string;
  PASSWORD : string;
  VERIFY : bool;
  TIMEOUT : Z
}.

(** The part of [requests.Session] the constructor sets. *)
Record Session : Type := mkSession {
  headers : list (string * string);
  auth : string * string;
  verify : bool
}.

(** Modelled from the spec: class [Project] of [resources.py], a name
    (the JIRA key), an integer id and a reference to the shared
    session. *)
Module Project.
Record t : Type := mk {
  name : string;
  id_ : Z;
  session : Session
}.
End Project.

(** Modelled from the spec: class [Folder] of [resources.py], the
    quadruple of project id, version id, cycle id and folder id. *)
Module Folder.
Record t : Type := mk {
  project : Z;
  version : Z;
  cycle : Z;
  id_ : Z
}.
End Folder.

(** Modelled from the spec: class [Execution] of [resources.py], a test
    execution record identified by its id. *)
Module Execution.
Record t : Type := mk {
  id : Z
}.
End Execution.

(** A project as the [jira] library lists it ([x.key], [x.id]). *)
Module JiraProject.
Record t : Type := mk {
  key : string;
  id : Z
}.
End JiraProject.

(** ** The module's constants *)

Definition _HEADERS : list (string * string) :=
  [("Content-Type", "application/json")].
Definition ZAPI_URL : string := "{}/rest/zapi/latest/".
Definition EMPTY_CYCLES_REQUEST : string := ZAPI_URL ++ "cycle?expand=".
Definition EXECUTIONS_URL : string :=
  ZAPI_URL ++ "execution/?projectId={}&versionId={}&cycleId={}&folderId={}".
Definition EXECUTIONS_ZQL_URL : string := ZAPI_URL ++ "zql/executeSearch?zqlQuery={}".
Definition MOVE_EXEUCTIONS_URL : string :=
  ZAPI_URL ++ "cycle/{}/move/executions/folder/{}".
Definition ERROR_DESC : string := "errorDesc".

(** ** The client object, the outside world and the log of calls *)

(** An instance of class [Zephyr].  [_projects = None] is the
    uninitialized state of the lazily loaded project list. *)
Record Zephyr : Type := mkZephyr {
  server : string;
  timeout : Z;
  _session : Session;
  _projects : option (list Project.t)
}.

Definition Params : Type := list (string * string).

(** One entry per call that leaves the module, in the order of the
    source lines that make them. *)
Inductive Event : Type :=
| SessionGet (url : string) (params : option Params) (tmo : Z)
| SessionPut (url : string) (data : json_value) (tmo : Z)
| LibRaiseOnError (response : option Response)
| JiraOpen (srv : string) (credentials : string * string) (tmo : Z)
| JiraProjects
| JiraClose
| Printed (text : string).

(** The outside world.  Each oracle sees the calls made so far, so the
    server may answer the same request differently at different times;
    [requests] and [jira] calls may raise instead of returning.
    [jira_raise_on_error] is [jira.resilientsession.raise_on_error]:
    [None] when it returns, [Some e] when it raises [e]; its argument is
    [None] when the caller hands it Python's [None]. *)
Record World : Type := mkWorld {
  requests_get :
    list Event -> Session -> string -> option Params -> Z -> result Response;
  requests_put :
    list Event -> Session -> string -> json_value -> Z -> result Response;
  jira_JIRA : list Event -> string -> string * string -> Z -> option py_exn;
  jira_projects : list Event -> result (list JiraProject.t);
  jira_raise_on_error : option Response -> option py_exn
}.

(** The state a method runs in: the object [self] and the calls made so
    far, most recent first. *)
Record State : Type := mkState {
  self : Zephyr;
  history : list Event
}.

(** ** The monad of methods: state and exceptions *)

Definition M (A : Type) : Type := State -> result A * State.

Definition ret {A : Type} (a : A) : M A := fun s => (Ok a, s).

Definition raise {A : Type} (e : py_exn) : M A := fun s => (Raise e, s).

Definition bind {A B : Type} (m : M A) (k : A -> M B) : M B :=
  fun s =>
    match m s with
    | (Ok a, s') => k a s'
    | (Raise e, s') => (Raise e, s')
    end.

Notation "x <- m ;; k" := (bind m (fun x => k))
  (at level 61, m at next level, right associativity).
Notation "m ;; k" := (bind m (fun _ => k))
  (at level 61, right associativity).

Definition lift {A : Type} (r : result A) : M A := fun s => (r, s).

Definition get_self : M Zephyr := fun s => (Ok (self s), s).

Definition record (e : Event) (s : State) : State :=
  {| self := self s; history := e :: history s |}.

(** [self._projects = v] *)
Definition set__projects (v : option (list Project.t)) : M unit :=
  fun s =>
    (Ok tt,
     {| self := {| server := server (self s);
                   timeout := timeout (self s);
                   _session := _session (self s);
                   _projects := v |};
        history := history s |}).

(** ** Class [Zephyr] *)

Section Methods.

Variable cfg : Config.
Variable W : World.

(** *** Calls that leave the module *)

(** [self._session.get(url=url, params=params, timeout=self.timeout)] *)
Definition session_get (url : string) (params : option Params) : M Response :=
  fun s =>
    (requests_get W (history s) (_session (self s)) url params (timeout (self s)),
     record (SessionGet url params (timeout (self s))) s).

(** [self._session.put(url=url, data=data, timeout=self.timeout)] *)
Definition session_put (url : string) (data : json_value) : M Response :=
  fun s =>
    (requests_put W (history s) (_session (self s)) url data (timeout (self s)),
     record (SessionPut url data (timeout (self s))) s).

(** [jira.resilientsession.raise_on_error(response)] *)
Definition lib_raise_on_error (response : option Response) : M unit :=
  fun s =>
    (match jira_raise_on_error W response with
     | None => Ok tt
     | Some e => Raise e
     end,
     record (LibRaiseOnError response) s).

(** [jira.JIRA(server=..., auth=..., timeout=...)] *)
Definition jira_open (srv : string) (credentials : string * string) (tmo : Z)
  : M unit :=
  fun s =>
    (match jira_JIRA W (history s) srv credentials tmo with
     | None => Ok tt
     | Some e => Raise e
     end,
     record (JiraOpen srv credentials tmo) s).

(** [jira_session.projects()] *)
Definition jira_session_projects : M (list JiraProject.t) :=
  fun s => (jira_projects W (history s), record JiraProjects s).

(** [jira_session.close()] *)
Definition jira_session_close : M unit :=
  fun s => (Ok tt, record JiraClose s).

(** [response.json()] *)
Definition response_json (response : Response) : M json_value :=
  match json response with
  | Some v => ret v
  | None => raise ValueError
  end.

(** [obj.get(key)] on a parsed JSON value: a dict answers with the
    value or [None]; no other JSON value has a [get] attribute. *)
Definition py_get (obj : json_value) (key : string) : M json_value :=
  match obj with
  | JDict items =>
      match assoc_get key items with
      | Some v => ret v
      | None => ret JNull
      end
  | JNull => raise (AttributeError "NoneType" "get")
  | JBool _ => raise (AttributeError "bool" "get")
  | JNum _ => raise (AttributeError "int" "get")
  | JStr _ => raise (AttributeError "str" "get")
  | JList _ => raise (AttributeError "list" "get")
  end.

(** *** The methods, in the order of the source *)

(** The object [__init__] has built when it reaches its last line.  An
    argument left out is [None] here and takes its default from the
    configuration; [basic_auth] is tested for truth. *)
Definition new_self (server_arg : option string)
    (basic_auth : option (string * string))
    (verify_arg : option bool) (timeout_arg : option Z) : Zephyr :=
  {| server := match server_arg with Some v => v | None => SERVER cfg end;
     timeout := match timeout_arg with Some t => t | None => TIMEOUT cfg end;
     _session :=
       {| headers := _HEADERS;
          auth := match basic_auth with
                  | Some credentials => credentials
                  | None => (USER cfg, PASSWORD cfg)
                  end;
          verify := match verify_arg with Some b => b | None => VERIFY cfg end |};
     _projects := None |}.

(** [get] has no [return]: when it does not raise, its value is
    Python's [None], whatever the response was. *)
Definition get (url : string) (params : option Params) : M (option Response) :=
  response <- session_get url params ;;
  lib_raise_on_error (Some response) ;;
  body <- response_json response ;;
  error <- py_get body ERROR_DESC ;;
  if py_truthy error then raise (JIRAError None None) else ret None.

Definition put (url : string) (data : json_value) : M Response :=
  session_put url data.

Definition _load_projects : M unit :=
  z <- get_self ;;
  jira_open (server z) (auth (_session z)) (timeout z) ;;
  projects <- jira_session_projects ;;
  let projects :=
    map (fun x => Project.mk (JiraProject.key x) (JiraProject.id x) (_session z))
        projects in
  set__projects (Some projects) ;;
  jira_session_close.

(** The property [projects]. *)
Definition projects : M (option (list Project.t)) :=
  z <- get_self ;;
  (match _projects z with
   | None => _load_projects
   | Some _ => ret tt
   end) ;;
  z <- get_self ;;
  ret (_projects z).

(** [proj, = [x for x in self.projects if x.name == name]]: the
    one-element unpacking raises [ValueError] unless the list has
    exactly one element; iterating [None] would be [TypeError]. *)
Definition project (name : string) : M Project.t :=
  ps <- projects ;;
  match ps with
  | None => raise TypeError
  | Some l =>
      match filter (fun x => String.eqb (Project.name x) name) l with
      | [proj] => ret proj
      | _ => raise ValueError
      end
  end.

Definition executions_zql (query : string) : M json_value :=
  z <- get_self ;;
  url <- lift (py_format EXECUTIONS_ZQL_URL [server z; query]) ;;
  response <- get url None ;;
  match response with
  | Some r => response_json r
  | None => raise (AttributeError "NoneType" "json")
  end.

(** The positional arguments of the [format] call in
    [move_executions]: [(folder.cycle, folder.id_)]. *)
Definition move_url_args (folder : Folder.t) : list string :=
  [py_str (Folder.cycle folder); py_str (Folder.id_ folder)].

Definition move_executions (executions : list Execution.t) (folder : Folder.t)
  : M unit :=
  url <- lift (py_format MOVE_EXEUCTIONS_URL (move_url_args folder)) ;;
  let executions := map Execution.id executions in
  let payload :=
    JDict [("projectId", JNum (Folder.project folder));
           ("versionId", JNum (Folder.version folder));
           ("schedulesList", JList (map JNum executions))] in
  response <- put url payload ;;
  if negb (status_code response =? 200)
  then raise (JIRAError None (Some response))
  else ret tt.

Definition _check_connection : M unit :=
  z <- get_self ;;
  url <- lift (py_format EMPTY_CYCLES_REQUEST [server z]) ;;
  response <- get url None ;;
  lib_raise_on_error response.

(** The loop of [_test_spam_calls]: [n] iterations left, the bodies of
    the failed responses so far. *)
Fixpoint spam_loop (url : string) (n : nat) (failed_responses : list bytes)
  : M (list bytes) :=
  match n with
  | O => ret failed_responses
  | S n' =>
      response <- get url None ;;
      match response with
      | None => raise (AttributeError "NoneType" "status_code")
      | Some r =>
          spam_loop url n'
            (if negb (status_code r =? 200)
             then (failed_responses ++ [content r])%list
             else failed_responses)
      end
  end.

Definition _test_spam_calls (calls : option Z) : M unit :=
  let calls := match calls with Some c => c | None => 200 end in
  let project_id := 10204 in
  let version_id := 20418 in
  let cycle_id := 3447 in
  let folder_id := 330 in
  z <- get_self ;;
  url <- lift (py_format EXECUTIONS_URL
                 [server z; py_str project_id; py_str version_id;
                  py_str cycle_id; py_str folder_id]) ;;
  failed_responses <- spam_loop url (Z.to_nat calls) [] ;;
  match failed_responses with
  | [] => ret tt
  | _ :: _ =>
      fun s =>
        (Ok tt,
         record (Printed ("Failed calls: "
                          ++ py_str (Z.of_nat (length failed_responses)))) s)
  end.

(** The method [raise_on_error]; no other method of the class calls
    it.  [and] evaluates its right operand only when the left one
    holds. *)
Definition raise_on_error (response : Response) : M unit :=
  marked <- (if status_code response =? 200
             then lift (py_str_in_bytes ERROR_DESC (content response))
             else ret false) ;;
  let response := if marked then set_status_code response 401 else response in
  lib_raise_on_error (Some response).

(** [Zephyr(server, basic_auth, verify, timeout)]: the fields are set,
    then [_check_connection] runs; the call gives the object only if
    that returns. *)
Definition __init__ (server_arg : option string)
    (basic_auth : option (string * string))
    (verify_arg : option bool) (timeout_arg : option Z)
    (calls_so_far : list Event) : result unit * State :=
  _check_connection
    {| self := new_self server_arg basic_auth verify_arg timeout_arg;
       history := calls_so_far |}.

End Methods.

(** ** Vocabulary of the statements *)

(** The path appended to the server by the two GET operations. *)
Definition ZQL_PATH : string := "/rest/zapi/latest/zql/executeSearch?zqlQuery=".
Definition CYCLES_PATH : string := "/rest/zapi/latest/cycle?expand=".

(** [needle] occurs in [haystack]. *)
Fixpoint contains (needle haystack : string) : bool :=
  String.prefix needle haystack ||
  match haystack with
  | EmptyString => false
  | String _ rest => contains needle rest
  end.

(** The raw body of a response contains the literal marker. *)
Definition body_has_marker (r : Response) : bool :=
  match content r with
  | Bytes raw => contains ERROR_DESC raw
  end.

(** The parsed JSON value has a field of that name. *)
Definition has_field (key : string) (v : json_value) : bool :=
  match v with
  | JDict items =>
      match assoc_get key items with
      | Some _ => true
      | None => false
      end
  | _ => false
  end.

(** The test of the comprehension in [project]: [x.name == name]. *)
Definition named (n : string) (x : Project.t) : bool :=
  String.eqb (Project.name x) n.

(** Number of external discovery calls ([jira_session.projects()]) in a
    log. *)
Fixpoint discovery_calls (h : list Event) : nat :=
  match h with
  | [] => O
  | JiraProjects :: rest => S (discovery_calls rest)
  | _ :: rest => discovery_calls rest
  end.

(** The URLs of the GET and PUT requests in a log, oldest first. *)
Fixpoint requested_urls (h : list Event) : list string :=
  match h with
  | [] => []
  | SessionGet url _ _ :: rest => requested_urls rest ++ [url]
  | SessionPut url _ _ :: rest => requested_urls rest ++ [url]
  | _ :: rest => requested_urls rest
  end.

(** The arguments the library's raise-on-error check was called with,
    oldest first. *)
Fixpoint lib_checks (h : list Event) : list (option Response) :=
  match h with
  | [] => []
  | LibRaiseOnError r :: rest => lib_checks rest ++ [r]
  | _ :: rest => lib_checks rest
  end.

(** Reading the property [projects] [n] times in a row. *)
Fixpoint read_projects (W : World) (n : nat)
  : M (list (option (list Project.t))) :=
  match n with
  | O => ret []
  | S n' =>
      a <- projects W ;;
      rest <- read_projects W n' ;;
      ret (a :: rest)
  end.

(** ** Concrete servers, used to run the methods *)

(** Modelled from the spec: the library's raise-on-error check "inspects
    status codes and raises a domain-specific error carrying the
    response for any non-success status"; handed [None] instead of a
    response it raises as well. *)
Definition lib_by_status (response : option Response) : option py_exn :=
  match response with
  | None => Some (JIRAError None None)
  | Some r =>
      if (200 <=? status_code r) && (status_code r <? 300)
      then None
      else Some (JIRAError (Some (status_code r)) (Some r))
  end.

(** A server that answers every request with [r] and lists [ps]. *)
Definition constant_world (r : Response) (ps : list JiraProject.t) : World :=
  {| requests_get := fun _ _ _ _ _ => Ok r;
     requests_put := fun _ _ _ _ _ => Ok r;
     jira_JIRA := fun _ _ _ _ => None;
     jira_projects := fun _ => Ok ps;
     jira_raise_on_error := lib_by_status |}.

(** A server whose project list changes after the first discovery. *)
Definition growing_world (r : Response) (ps : list JiraProject.t)
    (extra : JiraProject.t) : World :=
  {| requests_get := fun _ _ _ _ _ => Ok r;
     requests_put := fun _ _ _ _ _ => Ok r;
     jira_JIRA := fun _ _ _ _ => None;
     jira_projects := fun h =>
       match discovery_calls h with
       | O => Ok ps
       | S _ => Ok (extra :: ps)
       end;
     jira_raise_on_error := lib_by_status |}.

Definition dq : string := String (ascii_of_nat 34) EmptyString.
Definition quoted (s : string) : string := dq ++ s ++ dq.

(** [{"executions": []}] with status 200. *)
Definition resp_ok : Response :=
  {| status_code := 200;
     content := Bytes ("{" ++ quoted "executions" ++ ": []}");
     json := Some (JDict [("executions", JList [])]) |}.

(** [{"errorDesc": "no permission", "errorId": "ERROR"}] with status
    200. *)
Definition resp_no_permission : Response :=
  {| status_code := 200;
     content := Bytes ("{" ++ quoted "errorDesc" ++ ": " ++ quoted "no permission"
                       ++ ", " ++ quoted "errorId" ++ ": " ++ quoted "ERROR" ++ "}");
     json := Some (JDict [("errorDesc", JStr "no permission");
                          ("errorId", JStr "ERROR")]) |}.

(** Status 200 and a JSON object whose [errorDesc] field is the empty
    string, next to an empty [executions] list. *)
Definition resp_empty_desc : Response :=
  {| status_code := 200;
     content := Bytes ("{" ++ quoted "errorDesc" ++ ": " ++ quoted EmptyString
                       ++ ", " ++ quoted "executions" ++ ": []}");
     json := Some (JDict [("errorDesc", JStr EmptyString); ("executions", JList [])]) |}.

(** [[]] with status 200: an empty list of records. *)
Definition resp_empty_list : Response :=
  {| status_code := 200;
     content := Bytes "[]";
     json := Some (JList []) |}.

(** A genuine 401 with an HTML body. *)
Definition resp_401 : Response :=
  {| status_code := 401;
     content := Bytes "<html>Unauthorized</html>";
     json := None |}.

Definition cfg0 : Config :=
  {| SERVER := "https://jira.example.com";
     USER := "user";
     PASSWORD := "secret";
     VERIFY := true;
     TIMEOUT := 30 |}.

Definition state0 : State :=
  {| self := new_self cfg0 None None None None; history := [] |}.

Definition jira_projects0 : list JiraProject.t :=
  [JiraProject.mk "FOO" 10204; JiraProject.mk "foo" 10205; JiraProject.mk "BAR" 10300].

Definition folder0 : Folder.t :=
  {| Folder.project := 10204; Folder.version := 20418;
     Folder.cycle := 3447; Folder.id_ := 330 |}.

Definition executions0 : list Execution.t :=
  [Execution.mk 7; Execution.mk 9].

(** The client of [state0] after its projects were loaded from
    [jira_projects0]. *)
Definition projects0 : list Project.t :=
  map (fun x => Project.mk (JiraProject.key x) (JiraProject.id x)
                           (_session (self state0)))
      jira_projects0.

Definition state_loaded : State :=
  {| self := {| server := server (self state0);
                timeout := timeout (self state0);
                _session := _session (self state0);
                _projects := Some projects0 |};
     history := [JiraClose; JiraProjects;
                 JiraOpen (server (self state0)) (auth (_session (self state0)))
                          (timeout (self state0))] |}.

(** ** More vocabulary and servers, for the properties beyond the
    project cache and the request paths *)

(** The settings of a client that are fixed when it is built. *)
Definition same_settings (z z' : Zephyr) : Prop :=
  server z' = server z /\ timeout z' = timeout z /\ _session z' = _session z.

(** Number of [jira_session.close()] calls in a log. *)
Fixpoint jira_closes (h : list Event) : nat :=
  match h with
  | [] => O
  | JiraClose :: rest => S (jira_closes rest)
  | _ :: rest => jira_closes rest
  end.

(** The keys of the projects JIRA lists. *)
Definition keys (found : list JiraProject.t) : list string :=
  map JiraProject.key found.

(** The [Project] that [_load_projects] builds from a listed project. *)
Definition as_project (session : Session) (x : JiraProject.t) : Project.t :=
  Project.mk (JiraProject.key x) (JiraProject.id x) session.

(** A server that cannot be reached: every call into it raises. *)
Definition unreachable_world : World :=
  {| requests_get := fun _ _ _ _ _ => Raise ConnectionError;
     requests_put := fun _ _ _ _ _ => Raise ConnectionError;
     jira_JIRA := fun _ _ _ _ => Some ConnectionError;
     jira_projects := fun _ => Raise ConnectionError;
     jira_raise_on_error := lib_by_status |}.

(** A JIRA that opens a session and fails to list the first time it is
    asked; from the second time on it lists [ps]. *)
Definition flaky_world (r : Response) (ps : list JiraProject.t) : World :=
  {| requests_get := fun _ _ _ _ _ => Ok r;
     requests_put := fun _ _ _ _ _ => Ok r;
     jira_JIRA := fun _ _ _ _ => None;
     jira_projects := fun h =>
       match discovery_calls h with
       | O => Raise (JIRAError (Some 503) None)
       | S _ => Ok ps
       end;
     jira_raise_on_error := lib_by_status |}.

(** A library check that returns when handed [None] and otherwise goes
    by the status. *)
Definition lib_lenient (response : option Response) : option py_exn :=
  match response with
  | None => None
  | Some r => lib_by_status (Some r)
  end.

Definition lenient_world (r : Response) (ps : list JiraProject.t) : World :=
  {| requests_get := fun _ _ _ _ _ => Ok r;
     requests_put := fun _ _ _ _ _ => Ok r;
     jira_JIRA := fun _ _ _ _ => None;
     jira_projects := fun _ => Ok ps;
     jira_raise_on_error := lib_lenient |}.

(** Status 200 and a body that is no JSON. *)
Definition resp_html_200 : Response :=
  {| status_code := 200;
     content := Bytes "<html>Login</html>";
     json := None |}.

(** Status 401 together with a JSON error body. *)
Definition resp_401_json : Response :=
  {| status_code := 401;
     content := Bytes ("{" ++ quoted "errorDesc" ++ ": " ++ quoted "bad login" ++ "}");
     json := Some (JDict [("errorDesc", JStr "bad login")]) |}.

(** Status 500 and an empty body. *)
Definition resp_500 : Response :=
  {| status_code := 500;
     content := Bytes EmptyString;
     json := None |}.

(** * Properties *)

(** ** Strings and URL templates *)

Lemma append_nil_r (a : string) : (a ++ EmptyString)%string = a.
Proof.
  induction a as [|c a IH]; simpl; [reflexivity | now rewrite IH].
Qed.

Lemma length_append (a b : string) :
  String.length (a ++ b) = (String.length a + String.length b)%nat.
Proof.
  induction a as [|c a IH]; simpl; [reflexivity | now rewrite IH].
Qed.

Lemma append_same_suffix (a b x : string) :
  (a ++ x)%string = (b ++ x)%string -> a = b.
Proof.
  revert b; induction a as [|c a IH]; intros [|d b] H; simpl in H.
  - reflexivity.
  - apply (f_equal String.length) in H; simpl in H.
    rewrite length_append in H; lia.
  - apply (f_equal String.length) in H; simpl in H.
    rewrite length_append in H; lia.
  - injection H as -> H. f_equal. now apply IH.
Qed.

Lemma format_zql_url (srv query : string) :
  py_format EXECUTIONS_ZQL_URL [srv; query] = Ok (srv ++ ZQL_PATH ++ query)%string.
Proof.
  cbn. now rewrite append_nil_r.
Qed.

Lemma format_cycles_url (srv : string) :
  py_format EMPTY_CYCLES_REQUEST [srv] = Ok (srv ++ CYCLES_PATH)%string.
Proof.
  reflexivity.
Qed.

Lemma format_move_url_short (c f : string) :
  py_format MOVE_EXEUCTIONS_URL [c; f] = Raise IndexError.
Proof.
  reflexivity.
Qed.

Example format_ignores_braces_in_arguments :
  py_format EXECUTIONS_ZQL_URL ["https://h"; "summary ~ {}"]
  = Ok "https://h/rest/zapi/latest/zql/executeSearch?zqlQuery=summary ~ {}".
Proof. reflexivity. Qed.

Example format_executions_url :
  py_format EXECUTIONS_URL
    ["https://h"; py_str 10204; py_str 20418; py_str 3447; py_str 330]
  = Ok "https://h/rest/zapi/latest/execution/?projectId=10204&versionId=20418&cycleId=3447&folderId=330".
Proof. reflexivity. Qed.

Example py_str_negative : py_str (-12) = "-12".
Proof. reflexivity. Qed.

Example marker_found : body_has_marker resp_no_permission = true.
Proof. reflexivity. Qed.

Example marker_absent : body_has_marker resp_ok = false.
Proof. reflexivity. Qed.

(** ** The transport: [get] *)

Section Transport.

Variable W : World.

(** [get], one outside call at a time. *)
Lemma get_steps (url : string) (params : option Params) (s : State) :
  get W url params s =
  let s1 := record (SessionGet url params (timeout (self s))) s in
  match requests_get W (history s) (_session (self s)) url params
                     (timeout (self s)) with
  | Raise e => (Raise e, s1)
  | Ok r =>
      let s2 := record (LibRaiseOnError (Some r)) s1 in
      match jira_raise_on_error W (Some r) with
      | Some e => (Raise e, s2)
      | None =>
          match json r with
          | None => (Raise ValueError, s2)
          | Some (JDict items) =>
              match assoc_get ERROR_DESC items with
              | Some v =>
                  if py_truthy v
                  then (Raise (JIRAError None None), s2)
                  else (Ok None, s2)
              | None => (Ok None, s2)
              end
          | Some JNull => (Raise (AttributeError "NoneType" "get"), s2)
          | Some (JBool _) => (Raise (AttributeError "bool" "get"), s2)
          | Some (JNum _) => (Raise (AttributeError "int" "get"), s2)
          | Some (JStr _) => (Raise (AttributeError "str" "get"), s2)
          | Some (JList _) => (Raise (AttributeError "list" "get"), s2)
          end
      end
  end.
Proof.
  unfold get, bind, session_get, lib_raise_on_error, response_json.
  destruct (requests_get W _ _ _ _ _) as [r|e]; [|reflexivity].
  cbn zeta.
  destruct (jira_raise_on_error W (Some r)) as [e|]; [reflexivity|].
  destruct (json r) as [[| b | z | str | l | items]|]; try reflexivity.
  unfold py_get, ret, raise.
  destruct (assoc_get ERROR_DESC items) as [v|]; [|reflexivity].
  now destruct (py_truthy v).
Qed.

(** Whatever [get] returns is Python's [None]. *)
Lemma get_returns_None (url : string) (params : option Params)
    (s s' : State) (v : option Response) :
  get W url params s = (Ok v, s') -> v = None.
Proof.
  rewrite get_steps; cbn zeta.
  destruct (requests_get W _ _ _ _ _) as [r|e]; [|discriminate].
  destruct (jira_raise_on_error W (Some r)); [discriminate|].
  destruct (json r) as [[| b | z | str | l | items]|]; try discriminate.
  destruct (assoc_get ERROR_DESC items) as [x|].
  - destruct (py_truthy x); [discriminate|]. now intros [= <- _].
  - now intros [= <- _].
Qed.

(** A [get] that returns has made exactly the request and one library
    check, on the response as it came. *)
Lemma get_passes_inv (url : string) (params : option Params)
    (s s' : State) (v : option Response) :
  get W url params s = (Ok v, s') ->
  exists r,
    requests_get W (history s) (_session (self s)) url params
                 (timeout (self s)) = Ok r /\
    jira_raise_on_error W (Some r) = None /\
    self s' = self s /\
    history s' =
      LibRaiseOnError (Some r) :: SessionGet url params (timeout (self s))
        :: history s.
Proof.
  rewrite get_steps; cbn zeta.
  destruct (requests_get W _ _ _ _ _) as [r|e]; [|discriminate].
  destruct (jira_raise_on_error W (Some r)) eqn:E; [discriminate|].
  intros H; exists r.
  assert (s' = record (LibRaiseOnError (Some r))
                 (record (SessionGet url params (timeout (self s))) s)) as ->.
  { destruct (json r) as [[| b | z | str | l | items]|]; try discriminate.
    destruct (assoc_get ERROR_DESC items) as [x|].
    - destruct (py_truthy x); [discriminate|]. now injection H as _ <-.
    - now injection H as _ <-. }
  repeat split; auto.
Qed.

End Transport.

(** ** The query surface: [executions_zql] and [_check_connection] *)

Section Queries.

Variable W : World.

Lemma executions_zql_steps (query : string) (s : State) :
  executions_zql W query s =
  match get W (server (self s) ++ ZQL_PATH ++ query) None s with
  | (Ok (Some r), s') => response_json r s'
  | (Ok None, s') => (Raise (AttributeError "NoneType" "json"), s')
  | (Raise e, s') => (Raise e, s')
  end.
Proof.
  unfold executions_zql, bind, get_self, lift.
  rewrite format_zql_url.
  destruct (get W _ None s) as [[[r|]|e] s']; reflexivity.
Qed.

Lemma check_connection_steps (s : State) :
  _check_connection W s =
  match get W (server (self s) ++ CYCLES_PATH) None s with
  | (Ok response, s') => lib_raise_on_error W response s'
  | (Raise e, s') => (Raise e, s')
  end.
Proof.
  unfold _check_connection, bind, get_self, lift.
  rewrite format_cycles_url.
  destruct (get W _ None s) as [[response|e] s']; reflexivity.
Qed.

(** No call of [executions_zql] returns a value: it raises whatever
    the server answers. *)
Lemma executions_zql_never_returns (query : string) (s : State) :
  exists e, fst (executions_zql W query s) = Raise e.
Proof.
  rewrite executions_zql_steps.
  destruct (get W _ None s) as [[v|e] s'] eqn:E.
  - apply get_returns_None in E as ->. eexists; reflexivity.
  - eexists; reflexivity.
Qed.

(** The diagnostic helper reads [status_code] on what [get] returned:
    with at least one iteration it raises, too. *)
Lemma test_spam_calls_raises (calls : Z) (s : State) :
  0 < calls ->
  exists e, fst (_test_spam_calls W (Some calls) s) = Raise e.
Proof.
  intros Hpos. unfold _test_spam_calls, bind, get_self, lift.
  destruct (Z.to_nat calls) as [|n] eqn:En; [lia|].
  destruct (py_format EXECUTIONS_URL _) as [url|e]; [|eexists; reflexivity].
  cbn [spam_loop]. unfold bind.
  destruct (get W url None s) as [[v|e] s'] eqn:E.
  - apply get_returns_None in E as ->. eexists; reflexivity.
  - eexists; reflexivity.
Qed.

(** The library check run by [get] sees the response as the server
    sent it, and [get] passes on what that check raises. *)
Lemma get_propagates_lib_error (url : string) (params : option Params)
    (s : State) (r : Response) (e : py_exn) :
  requests_get W (history s) (_session (self s)) url params
               (timeout (self s)) = Ok r ->
  jira_raise_on_error W (Some r) = Some e ->
  fst (get W url params s) = Raise e.
Proof.
  intros Hr He. rewrite get_steps; cbn zeta. now rewrite Hr, He.
Qed.

Lemma get_lib_checks (url : string) (params : option Params) (s : State)
    (r : Response) :
  requests_get W (history s) (_session (self s)) url params
               (timeout (self s)) = Ok r ->
  lib_checks (history (snd (get W url params s))) =
  (lib_checks (history s) ++ [Some r])%list.
Proof.
  intros Hr. rewrite get_steps; cbn zeta. rewrite Hr.
  destruct (jira_raise_on_error W (Some r)); [reflexivity|].
  destruct (json r) as [[| b | z | str | l | items]|]; try reflexivity.
  destruct (assoc_get ERROR_DESC items) as [x|]; [|reflexivity].
  destruct (py_truthy x); reflexivity.
Qed.

End Queries.

(** C1, a defect of the code.  When the GET issued by
    [executions_zql q] completes with a structurally successful
    response (status 200, accepted by the library check, a JSON object
    without error descriptor), [executions_zql q] does not return the
    parsed body: [get] has returned [None], and the call raises
    [AttributeError] on [None.json()]. *)
Theorem executions_zql_raises_after_successful_get
    (W : World) (query : string) (s : State) (r : Response)
    (items : list (string * json_value)) :
  requests_get W (history s) (_session (self s))
               (server (self s) ++ ZQL_PATH ++ query) None
               (timeout (self s)) = Ok r ->
  status_code r = 200 ->
  jira_raise_on_error W (Some r) = None ->
  json r = Some (JDict items) ->
  assoc_get ERROR_DESC items = None ->
  fst (executions_zql W query s) = Raise (AttributeError "NoneType" "json") /\
  fst (executions_zql W query s) <> Ok (JDict items).
Proof.
  intros Hr _ Hlib Hjson Hfield.
  assert (fst (executions_zql W query s)
          = Raise (AttributeError "NoneType" "json")) as E.
  { rewrite executions_zql_steps, get_steps; cbn zeta.
    now rewrite Hr, Hlib, Hjson, Hfield. }
  split; [exact E | rewrite E; discriminate].
Qed.

Lemma executions_zql_raises_after_successful_get_witness :
  fst (executions_zql (constant_world resp_ok []) "project = FOO" state0)
  = Raise (AttributeError "NoneType" "json") /\
  fst (executions_zql (constant_world resp_ok []) "project = FOO" state0)
  <> Ok (JDict [("executions", JList [])]).
Proof.
  apply (executions_zql_raises_after_successful_get
           (constant_world resp_ok []) "project = FOO" state0 resp_ok
           [("executions", JList [])]); reflexivity.
Defined.

(** C2.  In every construction of the client in which the
    connectivity-check GET passes the validation inside [get],
    [_check_connection] then calls the library's raise-on-error check
    with [None] as its response argument, and the outcome of the
    construction is the outcome of that call; in every construction,
    passing or not, a second library check, when there is one, receives
    [None] and is the last. *)
Theorem init_second_check_receives_None
    (cfg : Config) (W : World)
    (server_arg : option string) (basic_auth : option (string * string))
    (verify_arg : option bool) (timeout_arg : option Z) (h : list Event) :
  let s0 := {| self := new_self cfg server_arg basic_auth verify_arg timeout_arg;
               history := h |} in
  let built := __init__ cfg W server_arg basic_auth verify_arg timeout_arg h in
  (forall v s1,
      get W (server (self s0) ++ CYCLES_PATH) None s0 = (Ok v, s1) ->
      v = None /\
      snd built = record (LibRaiseOnError None) s1 /\
      fst built = match jira_raise_on_error W None with
                  | None => Ok tt
                  | Some e => Raise e
                  end) /\
  (forall first second rest,
      lib_checks (history (snd built))
      = (lib_checks h ++ first :: second :: rest)%list ->
      second = None /\ rest = []).
Proof.
  intros s0 built; subst built; unfold __init__; fold s0.
  rewrite check_connection_steps.
  split.
  - intros v s1 Hget. rewrite Hget.
    pose proof (get_returns_None _ _ _ _ _ _ Hget) as ->.
    repeat split; reflexivity.
  - intros first second rest.
    destruct (get W _ None s0) as [[v|e] s1] eqn:Hget.
    + pose proof (get_returns_None _ _ _ _ _ _ Hget) as ->.
      destruct (get_passes_inv _ _ _ _ _ _ Hget) as (r & _ & _ & _ & Hh).
      cbn. rewrite Hh. cbn. rewrite <- app_assoc. cbn.
      intros H. apply app_inv_head in H. now injection H as _ <- <-.
    + cbn. rewrite get_steps in Hget; cbn zeta in Hget.
      destruct (requests_get W _ _ _ _ _) as [r|e0].
      * assert (history s1 = LibRaiseOnError (Some r)
                  :: SessionGet (server (self s0) ++ CYCLES_PATH) None
                       (timeout (self s0)) :: history s0) as ->.
        { destruct (jira_raise_on_error W (Some r)); [now injection Hget as _ <-|].
          destruct (json r) as [[| b | z | str | l | items]|];
            try now injection Hget as _ <-.
          destruct (assoc_get ERROR_DESC items) as [x|];
            [destruct (py_truthy x)|]; try discriminate;
            now injection Hget as _ <-. }
        cbn. intros H. apply app_inv_head in H. discriminate.
      * injection Hget as _ <-. cbn.
        intros H. rewrite <- (app_nil_r (lib_checks h)) in H at 1.
        apply app_inv_head in H. discriminate.
Qed.

Lemma init_second_check_receives_None_witness :
  let W := constant_world resp_ok [] in
  let s0 := {| self := new_self cfg0 None None None None; history := [] |} in
  get W (server (self s0) ++ CYCLES_PATH) None s0
  = (Ok None,
     record (LibRaiseOnError (Some resp_ok))
       (record (SessionGet (server (self s0) ++ CYCLES_PATH) None 30) s0)) /\
  lib_checks (history (snd (__init__ cfg0 W None None None None [])))
  = [Some resp_ok; None] /\
  fst (__init__ cfg0 W None None None None []) = Raise (JIRAError None None).
Proof.
  intros W s0.
  destruct (init_second_check_receives_None cfg0 W None None None None [])
    as [Hpass Hsecond].
  split; [reflexivity|].
  destruct (Hpass None
              (record (LibRaiseOnError (Some resp_ok))
                 (record (SessionGet (server (self s0) ++ CYCLES_PATH) None 30) s0))
              eq_refl) as (_ & Hstate & Hres).
  split; [rewrite Hstate; reflexivity | rewrite Hres; reflexivity].
Defined.

(** ** The error checks on a GET *)

(** C3, as stated, fails: a response with status 200 whose raw body
    contains the marker reaches the library check of [get] with status
    200, not 401, and here [get] does not raise at all, while a genuine
    401 raises [JIRAError]. *)
Lemma get_does_not_rewrite_status :
  let W := constant_world resp_empty_desc [] in
  status_code resp_empty_desc = 200 /\
  body_has_marker resp_empty_desc = true /\
  lib_checks (history (snd (get W "u" None state0))) = [Some resp_empty_desc] /\
  fst (get W "u" None state0) = Ok None /\
  fst (get (constant_world resp_401 []) "u" None state0)
  = Raise (JIRAError (Some 401) (Some resp_401)).
Proof.
  cbv zeta. repeat split; reflexivity.
Qed.

(** C3, amended.  On the request path [get], a response with status 200
    whose parsed body is a JSON object with a truthy [errorDesc] field
    is handed to the library's raise-on-error check as it came, its
    status still 200; when that check returns, [get] raises
    [jira.JIRAError], and otherwise it raises what the check raised:
    either way the call fails. *)
Theorem get_error_descriptor_raises
    (W : World) (url : string) (params : option Params) (s : State)
    (r : Response) (items : list (string * json_value)) (v : json_value) :
  requests_get W (history s) (_session (self s)) url params
               (timeout (self s)) = Ok r ->
  status_code r = 200 ->
  json r = Some (JDict items) ->
  assoc_get ERROR_DESC items = Some v ->
  py_truthy v = true ->
  lib_checks (history (snd (get W url params s)))
  = (lib_checks (history s) ++ [Some r])%list /\
  (jira_raise_on_error W (Some r) = None ->
   fst (get W url params s) = Raise (JIRAError None None)) /\
  (forall e, jira_raise_on_error W (Some r) = Some e ->
   fst (get W url params s) = Raise e) /\
  (exists e, fst (get W url params s) = Raise e).
Proof.
  intros Hr _ Hjson Hfield Htrue.
  split; [now apply get_lib_checks|].
  assert (jira_raise_on_error W (Some r) = None ->
          fst (get W url params s) = Raise (JIRAError None None)) as Hnone.
  { intros Hlib. rewrite get_steps; cbn zeta.
    now rewrite Hr, Hlib, Hjson, Hfield, Htrue. }
  split; [exact Hnone|].
  split; [intros e He; now apply get_propagates_lib_error with (r := r)|].
  destruct (jira_raise_on_error W (Some r)) as [e|] eqn:Hlib.
  - exists e. now apply get_propagates_lib_error with (r := r).
  - eexists. now apply Hnone.
Qed.

Lemma get_error_descriptor_raises_witness :
  let W := constant_world resp_no_permission [] in
  lib_checks (history (snd (get W "u" None state0))) = [Some resp_no_permission] /\
  fst (get W "u" None state0) = Raise (JIRAError None None).
Proof.
  intros W.
  destruct (get_error_descriptor_raises W "u" None state0 resp_no_permission
              [("errorDesc", JStr "no permission"); ("errorId", JStr "ERROR")]
              (JStr "no permission") eq_refl eq_refl eq_refl eq_refl eq_refl)
    as (Hchecks & Hraise & _ & _).
  split; [exact Hchecks | exact (Hraise eq_refl)].
Defined.

(** The method [raise_on_error] is the only place that would rewrite a
    status, and no request path reaches it; called directly with a
    response of status 200 it stops at the membership test, before the
    library check. *)
Lemma raise_on_error_200_is_TypeError (W : World) (r : Response) (s : State) :
  status_code r = 200 ->
  raise_on_error W r s = (Raise TypeError, s).
Proof.
  intros H. unfold raise_on_error, bind, lift. rewrite H. reflexivity.
Qed.

Lemma raise_on_error_other_status (W : World) (r : Response) (s : State) :
  status_code r <> 200 ->
  raise_on_error W r s = lib_raise_on_error W (Some r) s.
Proof.
  intros H. unfold raise_on_error, bind, ret.
  destruct (status_code r =? 200) eqn:E; [apply Z.eqb_eq in E; contradiction|].
  reflexivity.
Qed.

(** C6, as stated, fails: a 200 answer whose JSON body contains an
    [errorDesc] field that is empty makes [executions_zql] raise
    [AttributeError], which is no authorization error. *)
Lemma executions_zql_empty_descriptor_not_authorization_error :
  let W := constant_world resp_empty_desc [] in
  status_code resp_empty_desc = 200 /\
  (exists items,
      json resp_empty_desc = Some (JDict items) /\
      has_field ERROR_DESC (JDict items) = true) /\
  fst (executions_zql W "project = FOO" state0)
  = Raise (AttributeError "NoneType" "json") /\
  is_JIRAError (AttributeError "NoneType" "json") = false.
Proof.
  cbv zeta. repeat split; try reflexivity.
  eexists; split; reflexivity.
Qed.

(** C6, amended.  When the server answers the GET of [executions_zql]
    with status 200 and a JSON object whose [errorDesc] field is truthy
    (such as a non-empty description), and the library check accepts
    the response, the call raises [jira.JIRAError] and returns no
    result. *)
Theorem executions_zql_error_descriptor_raises
    (W : World) (query : string) (s : State) (r : Response)
    (items : list (string * json_value)) (v : json_value) :
  requests_get W (history s) (_session (self s))
               (server (self s) ++ ZQL_PATH ++ query) None
               (timeout (self s)) = Ok r ->
  status_code r = 200 ->
  jira_raise_on_error W (Some r) = None ->
  json r = Some (JDict items) ->
  assoc_get ERROR_DESC items = Some v ->
  py_truthy v = true ->
  fst (executions_zql W query s) = Raise (JIRAError None None) /\
  is_JIRAError (JIRAError None None) = true.
Proof.
  intros Hr _ Hlib Hjson Hfield Htrue.
  split; [|reflexivity].
  rewrite executions_zql_steps, get_steps; cbn zeta.
  now rewrite Hr, Hlib, Hjson, Hfield, Htrue.
Qed.

Lemma executions_zql_error_descriptor_raises_witness :
  fst (executions_zql (constant_world resp_no_permission []) "project = FOO" state0)
  = Raise (JIRAError None None) /\
  is_JIRAError (JIRAError None None) = true.
Proof.
  apply (executions_zql_error_descriptor_raises
           (constant_world resp_no_permission []) "project = FOO" state0
           resp_no_permission
           [("errorDesc", JStr "no permission"); ("errorId", JStr "ERROR")]
           (JStr "no permission")); reflexivity.
Defined.

(** C7, as stated, fails: status 200, no marker in the raw body, a
    parsed JSON value (the empty list) without error-description field,
    and [get] raises. *)
Lemma get_raises_on_json_list :
  let W := constant_world resp_empty_list [] in
  status_code resp_empty_list = 200 /\
  body_has_marker resp_empty_list = false /\
  json resp_empty_list = Some (JList []) /\
  has_field ERROR_DESC (JList []) = false /\
  jira_raise_on_error W (Some resp_empty_list) = None /\
  fst (get W "u" None state0) = Raise (AttributeError "list" "get").
Proof.
  cbv zeta. repeat split; reflexivity.
Qed.

(** C7, amended.  With a library check that raises for every status
    outside 200..299, [get] raises for every response with such a
    status; and for every response with status 200 that the library
    check accepts and whose parsed JSON is an object with no
    [errorDesc] field, [get] does not raise. *)
Theorem get_raises_iff_error
    (W : World) (url : string) (params : option Params) (s : State)
    (r : Response) :
  requests_get W (history s) (_session (self s)) url params
               (timeout (self s)) = Ok r ->
  ((forall r', ~ (200 <= status_code r' < 300) ->
               jira_raise_on_error W (Some r') <> None) ->
   ~ (200 <= status_code r < 300) ->
   exists e, fst (get W url params s) = Raise e) /\
  (forall items,
      status_code r = 200 ->
      jira_raise_on_error W (Some r) = None ->
      json r = Some (JDict items) ->
      assoc_get ERROR_DESC items = None ->
      fst (get W url params s) = Ok None).
Proof.
  intros Hr; split.
  - intros Hlib Hstatus.
    destruct (jira_raise_on_error W (Some r)) as [e|] eqn:E.
    + exists e. now apply get_propagates_lib_error with (r := r).
    + exfalso. now apply (Hlib r Hstatus).
  - intros items _ Hlib Hjson Hfield.
    rewrite get_steps; cbn zeta. now rewrite Hr, Hlib, Hjson, Hfield.
Qed.

Lemma lib_by_status_raises_outside_2xx (r : Response) :
  ~ (200 <= status_code r < 300) -> lib_by_status (Some r) <> None.
Proof.
  intros H. unfold lib_by_status.
  destruct ((200 <=? status_code r) && (status_code r <? 300)) eqn:E;
    [|discriminate].
  apply andb_true_iff in E as [E1 E2].
  apply Z.leb_le in E1. apply Z.ltb_lt in E2. lia.
Qed.

Lemma get_raises_iff_error_witness :
  (exists e, fst (get (constant_world resp_401 []) "u" None state0) = Raise e) /\
  fst (get (constant_world resp_ok []) "u" None state0) = Ok None.
Proof.
  split.
  - apply (get_raises_iff_error (constant_world resp_401 []) "u" None state0
             resp_401 eq_refl).
    + exact lib_by_status_raises_outside_2xx.
    + cbn; lia.
  - apply (get_raises_iff_error (constant_world resp_ok []) "u" None state0
             resp_ok eq_refl) with (items := [("executions", JList [])]);
      reflexivity.
Defined.

(** ** Which server the URLs are formatted with *)

Section Server.

Variable W : World.

Lemma get_requested_urls (url : string) (params : option Params) (s : State) :
  requested_urls (history (snd (get W url params s)))
  = (requested_urls (history s) ++ [url])%list.
Proof.
  rewrite get_steps; cbn zeta.
  destruct (requests_get W _ _ _ _ _) as [r|e]; [|reflexivity].
  destruct (jira_raise_on_error W (Some r)); [reflexivity|].
  destruct (json r) as [[| b | z | str | l | items]|]; try reflexivity.
  destruct (assoc_get ERROR_DESC items) as [x|]; [|reflexivity].
  destruct (py_truthy x); reflexivity.
Qed.

Lemma executions_zql_requested_urls (query : string) (s : State) :
  requested_urls (history (snd (executions_zql W query s)))
  = (requested_urls (history s) ++ [(server (self s) ++ ZQL_PATH ++ query)%string])%list.
Proof.
  rewrite executions_zql_steps.
  rewrite <- get_requested_urls with (params := None).
  destruct (get W _ None s) as [[[r|]|e] s']; try reflexivity.
  unfold response_json. destruct (json r); reflexivity.
Qed.

Lemma check_connection_requested_urls (s : State) :
  requested_urls (history (snd (_check_connection W s)))
  = (requested_urls (history s) ++ [(server (self s) ++ CYCLES_PATH)%string])%list.
Proof.
  rewrite check_connection_steps.
  rewrite <- get_requested_urls with (params := None).
  destruct (get W _ None s) as [[response|e] s']; reflexivity.
Qed.

Lemma load_projects_opens_with_server (s : State) :
  exists later,
    history (snd (_load_projects W s))
    = (later ++ JiraOpen (server (self s)) (auth (_session (self s)))
                         (timeout (self s)) :: history s)%list.
Proof.
  unfold _load_projects, bind, get_self, jira_open, jira_session_projects,
    set__projects, jira_session_close.
  destruct (jira_JIRA W _ _ _ _) as [e|].
  - exists []; reflexivity.
  - cbn. destruct (jira_projects W _) as [ps|e].
    + exists [JiraClose; JiraProjects]; reflexivity.
    + exists [JiraProjects]; reflexivity.
Qed.

End Server.

(** C4, as stated, fails: two clients built from the same configuration
    with different [server] arguments send the same query to different
    URLs. *)
Lemma server_argument_changes_the_url :
  let W := constant_world resp_ok [] in
  let a := {| self := new_self cfg0 (Some "https://a.example") None None None;
              history := [] |} in
  let b := {| self := new_self cfg0 (Some "https://b.example") None None None;
              history := [] |} in
  requested_urls (history (snd (executions_zql W "project = FOO" a)))
  = ["https://a.example/rest/zapi/latest/zql/executeSearch?zqlQuery=project = FOO"] /\
  requested_urls (history (snd (executions_zql W "project = FOO" b)))
  = ["https://b.example/rest/zapi/latest/zql/executeSearch?zqlQuery=project = FOO"] /\
  requested_urls (history (snd (executions_zql W "project = FOO" a)))
  <> requested_urls (history (snd (executions_zql W "project = FOO" b))).
Proof.
  cbv zeta. repeat split; try reflexivity. discriminate.
Qed.

(** C4, amended.  The [server] field stored at construction is the
    [server] argument (the configuration constant being its default
    only), and it is read: [executions_zql] and [_check_connection]
    send their GET to that field followed by the fixed path, and
    [_load_projects] opens its JIRA session on it; so two clients that
    differ in their [server] send the same query to different URLs. *)
Theorem server_field_is_read
    (cfg : Config) (W : World) (query : string) (s s' : State) :
  (forall v basic_auth verify_arg timeout_arg,
      server (new_self cfg (Some v) basic_auth verify_arg timeout_arg) = v) /\
  requested_urls (history (snd (executions_zql W query s)))
  = (requested_urls (history s) ++ [(server (self s) ++ ZQL_PATH ++ query)%string])%list /\
  requested_urls (history (snd (_check_connection W s)))
  = (requested_urls (history s) ++ [(server (self s) ++ CYCLES_PATH)%string])%list /\
  (exists later,
      history (snd (_load_projects W s))
      = (later ++ JiraOpen (server (self s)) (auth (_session (self s)))
                           (timeout (self s)) :: history s)%list) /\
  (server (self s) <> server (self s') ->
   history s = history s' ->
   requested_urls (history (snd (executions_zql W query s)))
   <> requested_urls (history (snd (executions_zql W query s'))) /\
   requested_urls (history (snd (_check_connection W s)))
   <> requested_urls (history (snd (_check_connection W s')))).
Proof.
  split; [reflexivity|].
  split; [apply executions_zql_requested_urls|].
  split; [apply check_connection_requested_urls|].
  split; [apply load_projects_opens_with_server|].
  intros Hneq Hh.
  rewrite !executions_zql_requested_urls, !check_connection_requested_urls, Hh.
  split; intros H; apply app_inv_head in H; injection H as H;
    apply append_same_suffix in H; contradiction.
Qed.

Lemma server_field_is_read_witness :
  let W := constant_world resp_ok [] in
  let a := {| self := new_self cfg0 (Some "https://a.example") None None None;
              history := [] |} in
  let b := {| self := new_self cfg0 (Some "https://b.example") None None None;
              history := [] |} in
  requested_urls (history (snd (executions_zql W "q" a)))
  <> requested_urls (history (snd (executions_zql W "q" b))) /\
  requested_urls (history (snd (_check_connection W a)))
  <> requested_urls (history (snd (_check_connection W b))).
Proof.
  intros W a b.
  destruct (server_field_is_read cfg0 W "q" a b) as (_ & _ & _ & _ & H).
  apply H; [discriminate | reflexivity].
Defined.

(** ** Moving executions *)

(** [move_executions] stops at its first line: the template has three
    fields and the [format] call two arguments, so the call raises
    [IndexError] before the payload is built and before any request. *)
Lemma move_executions_steps
    (W : World) (executions : list Execution.t) (folder : Folder.t) (s : State) :
  move_executions W executions folder s = (Raise IndexError, s).
Proof.
  reflexivity.
Qed.

(** C5, as stated, fails: for this folder and these executions no PUT
    is issued, to the URL of the specification or to any other. *)
Lemma move_executions_issues_no_put :
  let W := constant_world resp_ok [] in
  move_executions W executions0 folder0 state0 = (Raise IndexError, state0) /\
  requested_urls (history (snd (move_executions W executions0 folder0 state0)))
  <> ["https://jira.example.com/rest/zapi/latest/cycle/3447/330/move/executions/folder/330"].
Proof.
  cbv zeta. split; [reflexivity | discriminate].
Qed.

(** C5, amended.  The URL template of [move_executions], populated with
    a server and with the arguments the method passes (the folder's
    cycle id, then its folder id), is
    [{server}/rest/zapi/latest/cycle/{cycleId}/move/executions/folder/{folderId}]:
    the cycle id is followed by [move], with no folder id in between. *)
Theorem move_url_template (srv : string) (folder : Folder.t) :
  py_format MOVE_EXEUCTIONS_URL (srv :: move_url_args folder)
  = Ok (srv ++ "/rest/zapi/latest/cycle/" ++ py_str (Folder.cycle folder)
            ++ "/move/executions/folder/" ++ py_str (Folder.id_ folder))%string.
Proof.
  unfold move_url_args. cbn -[py_str]. now rewrite append_nil_r.
Qed.

(** C8, a defect of the code.  For every folder and every
    list of executions, [move_executions] raises [IndexError] while
    formatting its URL; the object and the log of calls are as before,
    so no payload was sent and no response was examined. *)
Theorem move_executions_never_sends
    (W : World) (executions : list Execution.t) (folder : Folder.t) (s : State) :
  move_executions W executions folder s = (Raise IndexError, s) /\
  requested_urls (history (snd (move_executions W executions folder s)))
  = requested_urls (history s).
Proof.
  now rewrite move_executions_steps.
Qed.

(** ** The project cache *)

Section Cache.

Variable W : World.

Lemma load_projects_steps (s : State) :
  _load_projects W s =
  let z := self s in
  let s1 := record (JiraOpen (server z) (auth (_session z)) (timeout z)) s in
  match jira_JIRA W (history s) (server z) (auth (_session z)) (timeout z) with
  | Some e => (Raise e, s1)
  | None =>
      match jira_projects W (history s1) with
      | Raise e => (Raise e, record JiraProjects s1)
      | Ok found =>
          (Ok tt,
           {| self :=
                {| server := server z;
                   timeout := timeout z;
                   _session := _session z;
                   _projects :=
                     Some (map (fun x => Project.mk (JiraProject.key x)
                                           (JiraProject.id x) (_session z))
                               found) |};
              history := JiraClose :: JiraProjects :: history s1 |})
      end
  end.
Proof.
  unfold _load_projects, bind, get_self, jira_open, jira_session_projects,
    set__projects, jira_session_close.
  cbn zeta.
  destruct (jira_JIRA W _ _ _ _) as [e|]; [reflexivity|].
  cbn. destruct (jira_projects W _) as [found|e]; reflexivity.
Qed.

(** A read of a loaded cache gives the memoized list and touches
    nothing. *)
Lemma projects_memoized (s : State) (l : list Project.t) :
  _projects (self s) = Some l ->
  projects W s = (Ok (Some l), s).
Proof.
  intros H. unfold projects, bind, get_self, ret.
  rewrite H. cbn. now rewrite H.
Qed.

(** A read that returns leaves the cache loaded with what it
    returned. *)
Lemma projects_returns_loaded (s s1 : State) (a : option (list Project.t)) :
  projects W s = (Ok a, s1) ->
  exists l, a = Some l /\ _projects (self s1) = Some l.
Proof.
  destruct (_projects (self s)) as [l|] eqn:E.
  - rewrite (projects_memoized s l E). intros [= <- <-]. now exists l.
  - unfold projects, bind, get_self, ret. rewrite E, load_projects_steps.
    cbn zeta.
    destruct (jira_JIRA W _ _ _ _); [discriminate|].
    destruct (jira_projects W _) as [found|e]; [|discriminate].
    cbn. intros [= <- <-]. eexists; split; reflexivity.
Qed.

(** One read makes at most one discovery call, and exactly one when
    it starts from the uninitialized cache and returns. *)
Lemma projects_discovery_calls (s : State) :
  (discovery_calls (history (snd (projects W s)))
   <= discovery_calls (history s) + 1)%nat /\
  (forall a s1,
      projects W s = (Ok a, s1) ->
      _projects (self s) = None ->
      discovery_calls (history s1) = (discovery_calls (history s) + 1)%nat).
Proof.
  destruct (_projects (self s)) as [l|] eqn:E.
  - rewrite (projects_memoized s l E). split; [cbn; lia | discriminate].
  - unfold projects, bind, get_self, ret. rewrite E, load_projects_steps.
    cbn zeta.
    destruct (jira_JIRA W _ _ _ _).
    + split; [cbn; lia | discriminate].
    + destruct (jira_projects W _) as [found|e].
      * split; [cbn; lia|]. intros a s1 [= <- <-] _. cbn. lia.
      * split; [cbn; lia | discriminate].
Qed.

Lemma read_projects_memoized (n : nat) (s : State) (l : list Project.t) :
  _projects (self s) = Some l ->
  read_projects W n s = (Ok (repeat (Some l) n), s).
Proof.
  intros H. induction n as [|n IH]; [reflexivity|].
  cbn [read_projects repeat]. unfold bind.
  now rewrite (projects_memoized s l H), IH.
Qed.

Lemma read_projects_discovery_calls (n : nat) (s : State) :
  (discovery_calls (history (snd (read_projects W n s)))
   <= discovery_calls (history s) + 1)%nat.
Proof.
  destruct n as [|n]; [cbn; lia|].
  cbn [read_projects]. unfold bind.
  pose proof (projects_discovery_calls s) as [Hle _].
  destruct (projects W s) as [[a|e] s1] eqn:E; [|exact Hle].
  destruct (projects_returns_loaded _ _ _ E) as (l & -> & Hl).
  now rewrite (read_projects_memoized n s1 l Hl).
Qed.

End Cache.

(** C9, as stated, fails: on a client whose first listing raises, two
    reads of the project list make two external discovery calls, the
    first read leaving the cache uninitialized. *)
Lemma failed_first_read_makes_two_discovery_calls :
  let W := flaky_world resp_ok jira_projects0 in
  let s1 := snd (projects W state0) in
  discovery_calls (history state0) = 0%nat /\
  fst (projects W state0) = Raise (JIRAError (Some 503) None) /\
  _projects (self s1) = None /\
  fst (projects W s1) = Ok (Some projects0) /\
  discovery_calls (history (snd (projects W s1))) = 2%nat.
Proof.
  cbv zeta. repeat split; reflexivity.
Qed.

(** C9, amended.  One read of the project list makes at most one
    external discovery call.  When the first read returns, it leaves the
    cache loaded with the list it returned, having made exactly one
    discovery call if the cache was uninitialized, and every later read
    returns that same list and changes neither the client nor the log
    of calls: the two reads make one discovery call in all.  A read
    that raises leaves the cache uninitialized. *)
Theorem projects_loaded_once_when_first_read_returns (W : World) (s : State) :
  (discovery_calls (history (snd (projects W s)))
   <= discovery_calls (history s) + 1)%nat /\
  (forall a s1,
      projects W s = (Ok a, s1) ->
      (exists l, a = Some l /\ _projects (self s1) = Some l) /\
      (_projects (self s) = None ->
       discovery_calls (history s1) = (discovery_calls (history s) + 1)%nat) /\
      projects W s1 = (Ok a, s1) /\
      (forall n, read_projects W n s1 = (Ok (repeat a n), s1)) /\
      (forall n, read_projects W (S n) s = (Ok (repeat a (S n)), s1))) /\
  (forall e s1,
      projects W s = (Raise e, s1) ->
      _projects (self s) = None /\ _projects (self s1) = None).
Proof.
  split; [apply projects_discovery_calls|].
  split.
  - intros a s1 E.
    destruct (projects_returns_loaded _ _ _ _ E) as (l & -> & Hl).
    split; [now exists l|].
    split; [intros Hnone;
            now apply (proj2 (projects_discovery_calls W s)) with (a := Some l)|].
    split; [now apply projects_memoized|].
    split; [intros n; now apply read_projects_memoized|].
    intros n. cbn [read_projects repeat]. unfold bind.
    now rewrite E, (read_projects_memoized W n s1 l Hl).
  - intros e s1.
    destruct (_projects (self s)) as [l|] eqn:Hc.
    + rewrite (projects_memoized W s l Hc). discriminate.
    + unfold projects, bind, get_self, ret.
      rewrite Hc, load_projects_steps; cbn zeta.
      destruct (jira_JIRA W _ _ _ _).
      * intros [= _ <-]. now split.
      * destruct (jira_projects W _); [discriminate|].
        intros [= _ <-]. now split.
Qed.

Lemma projects_loaded_once_when_first_read_returns_witness :
  let W := growing_world resp_ok jira_projects0 (JiraProject.mk "NEW" 1) in
  _projects (self state0) = None /\
  projects W state0 = (Ok (Some projects0), state_loaded) /\
  projects W state_loaded = (Ok (Some projects0), state_loaded) /\
  read_projects W 2 state0 = (Ok [Some projects0; Some projects0], state_loaded) /\
  discovery_calls (history state_loaded) = 1%nat.
Proof.
  intros W.
  destruct (projects_loaded_once_when_first_read_returns W state0) as (_ & H & _).
  destruct (H (Some projects0) state_loaded eq_refl)
    as (_ & Hcount & Hagain & _ & Hreads).
  split; [reflexivity|].
  split; [reflexivity|].
  split; [exact Hagain|].
  split; [exact (Hreads 1%nat) | exact (Hcount eq_refl)].
Defined.

(** ** Looking a project up by name *)

Section Lookup.

Variable W : World.
Variable n : string.

Lemma project_steps (s : State) (l : list Project.t) :
  _projects (self s) = Some l ->
  project W n s =
  match filter (named n) l with
  | [proj] => (Ok proj, s)
  | _ => (Raise ValueError, s)
  end.
Proof.
  intros H. unfold project, bind. rewrite (projects_memoized W s l H).
  change (fun x => String.eqb (Project.name x) n) with (named n).
  destruct (filter (named n) l) as [|p [|q rest]]; reflexivity.
Qed.

Lemma filter_no_match (l : list Project.t) :
  (forall q, In q l -> Project.name q <> n) -> filter (named n) l = [].
Proof.
  induction l as [|x l IH]; intros H; [reflexivity|].
  cbn. unfold named at 1.
  destruct (String.eqb_spec (Project.name x) n) as [E|_].
  - exfalso. apply (H x); [now left | exact E].
  - apply IH. intros q Hq. apply H. now right.
Qed.

Lemma filter_match (x : Project.t) (l : list Project.t) :
  Project.name x = n -> filter (named n) (x :: l) = x :: filter (named n) l.
Proof.
  intros E. cbn. unfold named at 1. now rewrite E, String.eqb_refl.
Qed.

End Lookup.

(** C10.  With the project collection loaded: when exactly one project
    of the collection has the name [n] (string equality, so case
    matters), [project n] returns that project; when none has it, or
    two or more have it, [project n] raises the [ValueError] of the
    failed unpacking.  The client is left as it was. *)
Theorem project_returns_the_unique_match
    (W : World) (n : string) (s : State) (l : list Project.t) :
  _projects (self s) = Some l ->
  (forall before p after,
      l = (before ++ p :: after)%list ->
      Project.name p = n ->
      (forall q, In q before -> Project.name q <> n) ->
      (forall q, In q after -> Project.name q <> n) ->
      project W n s = (Ok p, s)) /\
  ((forall q, In q l -> Project.name q <> n) ->
   project W n s = (Raise ValueError, s)) /\
  (forall before p between q after,
      l = (before ++ p :: between ++ q :: after)%list ->
      Project.name p = n ->
      Project.name q = n ->
      project W n s = (Raise ValueError, s)).
Proof.
  intros Hl. repeat split.
  - intros before p after -> Hp Hbefore Hafter.
    rewrite (project_steps W n s _ Hl), filter_app, (filter_match n p after Hp).
    now rewrite (filter_no_match n before Hbefore), (filter_no_match n after Hafter).
  - intros Hnone.
    now rewrite (project_steps W n s _ Hl), (filter_no_match n l Hnone).
  - intros before p between q after -> Hp Hq.
    rewrite (project_steps W n s _ Hl), filter_app, (filter_match n p _ Hp),
      filter_app, (filter_match n q _ Hq).
    destruct (filter _ before) as [|x [|y rest]]; cbn;
      try reflexivity;
      destruct (filter _ between); reflexivity.
Qed.

Lemma project_returns_the_unique_match_witness :
  let W := constant_world resp_ok jira_projects0 in
  project W "FOO" state_loaded
  = (Ok (Project.mk "FOO" 10204 (_session (self state0))), state_loaded) /\
  project W "Foo" state_loaded = (Raise ValueError, state_loaded).
Proof.
  intros W.
  destruct (project_returns_the_unique_match W "FOO" state_loaded projects0 eq_refl)
    as (Hone & _ & _).
  destruct (project_returns_the_unique_match W "Foo" state_loaded projects0 eq_refl)
    as (_ & Hnone & _).
  split.
  - apply (Hone [] _ (skipn 1 projects0) eq_refl eq_refl).
    + intros q [].
    + cbn. intros q [<- | [<- | []]]; cbn; discriminate.
  - apply Hnone.
    cbn. intros q [<- | [<- | [<- | []]]]; cbn; discriminate.
Defined.

(** * Further properties of the methods *)

(** ** [get]: one request, and which failure wins *)

Lemma get_cases (W : World) (url : string) (params : option Params) (s : State) :
  self (snd (get W url params s)) = self s /\
  (history (snd (get W url params s))
   = SessionGet url params (timeout (self s)) :: history s /\
   (exists e, requests_get W (history s) (_session (self s)) url params
                           (timeout (self s)) = Raise e)
   \/
   exists r,
     requests_get W (history s) (_session (self s)) url params
                  (timeout (self s)) = Ok r /\
     history (snd (get W url params s))
     = LibRaiseOnError (Some r) :: SessionGet url params (timeout (self s))
         :: history s).
Proof.
  rewrite get_steps; cbn zeta.
  destruct (requests_get W _ _ _ _ _) as [r|e].
  - assert (forall x : result (option Response) * State,
               snd x = record (LibRaiseOnError (Some r))
                         (record (SessionGet url params (timeout (self s))) s) ->
               self (snd x) = self s /\
               (history (snd x)
                = SessionGet url params (timeout (self s)) :: history s /\
                (exists e, Ok r = Raise e)
                \/
                exists r0,
                  Ok r = Ok r0 /\
                  history (snd x)
                  = LibRaiseOnError (Some r0)
                      :: SessionGet url params (timeout (self s)) :: history s))
      as K.
    { intros x ->. split; [reflexivity|]. right. now exists r. }
    apply K.
    destruct (jira_raise_on_error W (Some r)); [reflexivity|].
    destruct (json r) as [[| b | z | str | l | items]|]; try reflexivity.
    destruct (assoc_get ERROR_DESC items) as [x|]; [|reflexivity].
    destruct (py_truthy x); reflexivity.
  - split; [reflexivity|]. left. split; [reflexivity | now exists e].
Qed.

(** X1.  Whatever the server does, one call of [get] sends exactly one
    request, with the URL and parameters it was given and the client's
    timeout, follows it with at most one library check, on the response
    as received, and leaves the client object as it was: nothing is
    retried and nothing is cached. *)
Theorem get_sends_exactly_one_request
    (W : World) (url : string) (params : option Params) (s : State) :
  self (snd (get W url params s)) = self s /\
  requested_urls (history (snd (get W url params s)))
  = (requested_urls (history s) ++ [url])%list /\
  (history (snd (get W url params s))
   = SessionGet url params (timeout (self s)) :: history s
   \/
   exists r,
     requests_get W (history s) (_session (self s)) url params
                  (timeout (self s)) = Ok r /\
     history (snd (get W url params s))
     = LibRaiseOnError (Some r) :: SessionGet url params (timeout (self s))
         :: history s).
Proof.
  destruct (get_cases W url params s) as [Hself Hh].
  split; [exact Hself|].
  destruct Hh as [[Hh _] | (r & Hr & Hh)].
  - split; [now rewrite Hh | now left].
  - split; [now rewrite Hh | right; now exists r].
Qed.

(** X2.  When the transport itself raises (no response arrives), [get]
    raises that same exception and the library check is not called. *)
Theorem get_transport_error_propagates
    (W : World) (url : string) (params : option Params) (s : State)
    (e : py_exn) :
  requests_get W (history s) (_session (self s)) url params
               (timeout (self s)) = Raise e ->
  fst (get W url params s) = Raise e /\
  lib_checks (history (snd (get W url params s))) = lib_checks (history s).
Proof.
  intros H. rewrite get_steps; cbn zeta. rewrite H. now split.
Qed.

Lemma get_transport_error_propagates_witness :
  fst (get unreachable_world "u" None state0) = Raise ConnectionError /\
  lib_checks (history (snd (get unreachable_world "u" None state0))) = [].
Proof.
  apply (get_transport_error_propagates unreachable_world "u" None state0
           ConnectionError).
  reflexivity.
Defined.

(** X3.  The status check comes first: when the library check raises on
    the response, [get] raises that exception whatever the body is,
    parseable or not, with or without an error descriptor; the bare
    [JIRAError] of the descriptor test is raised only for responses the
    library check accepted. *)
Theorem get_status_error_precedes_body
    (W : World) (url : string) (params : option Params) (s : State)
    (r : Response) :
  requests_get W (history s) (_session (self s)) url params
               (timeout (self s)) = Ok r ->
  (forall e, jira_raise_on_error W (Some r) = Some e ->
             fst (get W url params s) = Raise e) /\
  (fst (get W url params s) = Raise (JIRAError None None) ->
   jira_raise_on_error W (Some r) = Some (JIRAError None None) \/
   jira_raise_on_error W (Some r) = None /\
   exists items v,
     json r = Some (JDict items) /\
     assoc_get ERROR_DESC items = Some v /\ py_truthy v = true).
Proof.
  intros Hr. split.
  - intros e He. now apply get_propagates_lib_error with (r := r).
  - rewrite get_steps; cbn zeta. rewrite Hr.
    destruct (jira_raise_on_error W (Some r)) as [e|].
    + cbn. intros [= ->]. now left.
    + destruct (json r) as [[| b | z | str | l | items]|]; cbn; try discriminate.
      destruct (assoc_get ERROR_DESC items) as [v|] eqn:Ev; [|discriminate].
      destruct (py_truthy v) eqn:Tv; [|discriminate].
      intros _. right. split; [reflexivity|]. now exists items, v.
Qed.

Lemma get_status_error_precedes_body_witness :
  fst (get (constant_world resp_401_json []) "u" None state0)
  = Raise (JIRAError (Some 401) (Some resp_401_json)).
Proof.
  destruct (get_status_error_precedes_body (constant_world resp_401_json [])
              "u" None state0 resp_401_json eq_refl) as [H _].
  apply H. reflexivity.
Defined.

(** X4.  A response that the library check accepts and whose body is not
    JSON makes [get] raise the [ValueError] of [response.json()]; the
    status alone does not make a GET succeed. *)
Theorem get_unparseable_body_is_ValueError
    (W : World) (url : string) (params : option Params) (s : State)
    (r : Response) :
  requests_get W (history s) (_session (self s)) url params
               (timeout (self s)) = Ok r ->
  jira_raise_on_error W (Some r) = None ->
  json r = None ->
  fst (get W url params s) = Raise ValueError.
Proof.
  intros Hr Hlib Hjson. rewrite get_steps; cbn zeta.
  now rewrite Hr, Hlib, Hjson.
Qed.

Lemma get_unparseable_body_is_ValueError_witness :
  fst (get (constant_world resp_html_200 []) "u" None state0) = Raise ValueError.
Proof.
  apply (get_unparseable_body_is_ValueError (constant_world resp_html_200 [])
           "u" None state0 resp_html_200); reflexivity.
Defined.

(** X5.  For a response the library check accepts and whose body is a
    JSON object, [get] raises the bare [JIRAError] exactly when the
    object has an [errorDesc] entry with a truthy value; a missing
    entry and an entry that is [null], [false], [0] or empty both make
    [get] return [None]. *)
Theorem get_object_body_raises_iff_truthy_descriptor
    (W : World) (url : string) (params : option Params) (s : State)
    (r : Response) (items : list (string * json_value)) :
  requests_get W (history s) (_session (self s)) url params
               (timeout (self s)) = Ok r ->
  jira_raise_on_error W (Some r) = None ->
  json r = Some (JDict items) ->
  (fst (get W url params s) = Raise (JIRAError None None) <->
   exists v, assoc_get ERROR_DESC items = Some v /\ py_truthy v = true) /\
  (fst (get W url params s) = Ok None <->
   assoc_get ERROR_DESC items = None \/
   exists v, assoc_get ERROR_DESC items = Some v /\ py_truthy v = false).
Proof.
  intros Hr Hlib Hjson. rewrite get_steps; cbn zeta.
  rewrite Hr, Hlib, Hjson.
  destruct (assoc_get ERROR_DESC items) as [v|].
  - destruct (py_truthy v) eqn:Tv; cbn; split; split.
    + intros _. now exists v.
    + reflexivity.
    + discriminate.
    + intros [H | (v' & [= <-] & H)]; [discriminate | congruence].
    + discriminate.
    + intros (v' & [= <-] & H). congruence.
    + intros _. right. now exists v.
    + reflexivity.
  - cbn; split; split.
    + discriminate.
    + intros (v & H & _). discriminate.
    + intros _. now left.
    + reflexivity.
Qed.

Lemma get_object_body_raises_iff_truthy_descriptor_witness :
  fst (get (constant_world resp_no_permission []) "u" None state0)
  = Raise (JIRAError None None) /\
  fst (get (constant_world resp_empty_desc []) "u" None state0) = Ok None /\
  fst (get (constant_world resp_ok []) "u" None state0) = Ok None.
Proof.
  split; [|split].
  - apply (get_object_body_raises_iff_truthy_descriptor
             (constant_world resp_no_permission []) "u" None state0
             resp_no_permission _ eq_refl eq_refl eq_refl).
    exists (JStr "no permission"). split; reflexivity.
  - apply (get_object_body_raises_iff_truthy_descriptor
             (constant_world resp_empty_desc []) "u" None state0
             resp_empty_desc _ eq_refl eq_refl eq_refl).
    right. exists (JStr EmptyString). split; reflexivity.
  - apply (get_object_body_raises_iff_truthy_descriptor
             (constant_world resp_ok []) "u" None state0
             resp_ok _ eq_refl eq_refl eq_refl).
    now left.
Defined.

(** X6.  For a response the library check accepts and whose body is
    JSON but not an object (a list, a string, a number, a boolean or
    [null]), [get] raises [AttributeError] for the attribute [get]:
    only object bodies can pass. *)
Theorem get_non_object_body_is_AttributeError
    (W : World) (url : string) (params : option Params) (s : State)
    (r : Response) (v : json_value) :
  requests_get W (history s) (_session (self s)) url params
               (timeout (self s)) = Ok r ->
  jira_raise_on_error W (Some r) = None ->
  json r = Some v ->
  (forall items, v <> JDict items) ->
  exists type_name,
    fst (get W url params s) = Raise (AttributeError type_name "get").
Proof.
  intros Hr Hlib Hjson Hv. rewrite get_steps; cbn zeta.
  rewrite Hr, Hlib, Hjson.
  destruct v as [| b | z | str | l | items];
    try (eexists; reflexivity).
  exfalso. now apply (Hv items).
Qed.

Lemma get_non_object_body_is_AttributeError_witness :
  exists type_name,
    fst (get (constant_world resp_empty_list []) "u" None state0)
    = Raise (AttributeError type_name "get").
Proof.
  apply (get_non_object_body_is_AttributeError
           (constant_world resp_empty_list []) "u" None state0
           resp_empty_list (JList [])); try reflexivity.
  discriminate.
Defined.

(** ** Construction *)

Lemma check_connection_frame (W : World) (s : State) :
  self (snd (_check_connection W s)) = self s /\
  discovery_calls (history (snd (_check_connection W s)))
  = discovery_calls (history s).
Proof.
  rewrite check_connection_steps.
  destruct (get_cases W (server (self s) ++ CYCLES_PATH) None s) as [Hself Hh].
  destruct (get W _ None s) as [[v|e] s1]; cbn in *.
  - rewrite Hself. split; [reflexivity|].
    destruct Hh as [[-> _] | (r & _ & ->)]; reflexivity.
  - rewrite Hself. split; [reflexivity|].
    destruct Hh as [[-> _] | (r & _ & ->)]; reflexivity.
Qed.

(** X7.  Building a client succeeds exactly when the connectivity GET
    passes [get] and the library check returns on the [None] it is then
    handed; so with a library check that raises on [None], no
    construction succeeds, whatever the server answers. *)
Theorem init_succeeds_iff
    (cfg : Config) (W : World)
    (server_arg : option string) (basic_auth : option (string * string))
    (verify_arg : option bool) (timeout_arg : option Z) (h : list Event) :
  let s0 := {| self := new_self cfg server_arg basic_auth verify_arg timeout_arg;
               history := h |} in
  let built := __init__ cfg W server_arg basic_auth verify_arg timeout_arg h in
  (fst built = Ok tt <->
   fst (get W (server (self s0) ++ CYCLES_PATH) None s0) = Ok None /\
   jira_raise_on_error W None = None) /\
  (jira_raise_on_error W None <> None -> exists e, fst built = Raise e).
Proof.
  intros s0 built; subst built; unfold __init__; fold s0.
  rewrite check_connection_steps.
  destruct (get W _ None s0) as [[v|e] s1] eqn:Hget.
  - pose proof (get_returns_None _ _ _ _ _ _ Hget) as ->.
    unfold lib_raise_on_error; cbn.
    destruct (jira_raise_on_error W None) as [e|].
    + split; [split|].
      * discriminate.
      * intros [_ H]; discriminate.
      * intros _. now exists e.
    + split; [split|].
      * now split.
      * reflexivity.
      * intros H. now contradiction H.
  - cbn. split; [split|].
    + discriminate.
    + intros [H _]; discriminate.
    + intros _. now exists e.
Qed.

Lemma init_succeeds_iff_witness :
  fst (__init__ cfg0 (lenient_world resp_ok []) None None None None []) = Ok tt /\
  exists e,
    fst (__init__ cfg0 (constant_world resp_ok []) None None None None [])
    = Raise e.
Proof.
  split.
  - apply (init_succeeds_iff cfg0 (lenient_world resp_ok []) None None None None []).
    split; reflexivity.
  - apply (init_succeeds_iff cfg0 (constant_world resp_ok []) None None None None []).
    discriminate.
Defined.

(** X8.  Whether it succeeds or fails, building a client sends exactly
    one HTTP request, to the cycles endpoint of the [server] argument
    (of the configured [SERVER] when the argument is left out); it makes
    no project discovery call, and the object it leaves has the fields
    the constructor set, with the project cache uninitialized. *)
Theorem init_sends_one_request_and_loads_nothing
    (cfg : Config) (W : World)
    (server_arg : option string) (basic_auth : option (string * string))
    (verify_arg : option bool) (timeout_arg : option Z) (h : list Event) :
  let built := __init__ cfg W server_arg basic_auth verify_arg timeout_arg h in
  self (snd built) = new_self cfg server_arg basic_auth verify_arg timeout_arg /\
  _projects (self (snd built)) = None /\
  requested_urls (history (snd built))
  = (requested_urls h
     ++ [(match server_arg with Some v => v | None => SERVER cfg end
          ++ CYCLES_PATH)%string])%list /\
  discovery_calls (history (snd built)) = discovery_calls h.
Proof.
  intros built; subst built; unfold __init__.
  set (s0 := {| self := new_self cfg server_arg basic_auth verify_arg timeout_arg;
                history := h |}).
  destruct (check_connection_frame W s0) as [Hself Hcalls].
  split; [exact Hself|].
  split; [now rewrite Hself|].
  split; [now rewrite check_connection_requested_urls | exact Hcalls].
Qed.

(** ** What the methods leave alone *)

Lemma spam_loop_self (W : World) (url : string) (n : nat) :
  forall (failed : list bytes) (s : State),
    self (snd (spam_loop W url n failed s)) = self s.
Proof.
  induction n as [|n IH]; intros failed s; [reflexivity|].
  cbn [spam_loop]. unfold bind.
  destruct (get_cases W url None s) as [Hself _].
  destruct (get W url None s) as [[[r|]|e] s1]; cbn in Hself |- *;
    try exact Hself.
  now rewrite IH.
Qed.

(** X9.  The methods that talk HTTP never change the client object:
    after [get], [put], [executions_zql], [move_executions],
    [_check_connection], [raise_on_error] and [_test_spam_calls],
    whether they return or raise, server, timeout, session and project
    cache are what they were. *)
Theorem http_methods_leave_the_client_untouched (W : World) (s : State) :
  (forall url params, self (snd (get W url params s)) = self s) /\
  (forall url data, self (snd (put W url data s)) = self s) /\
  (forall query, self (snd (executions_zql W query s)) = self s) /\
  (forall executions folder,
      self (snd (move_executions W executions folder s)) = self s) /\
  self (snd (_check_connection W s)) = self s /\
  (forall response, self (snd (raise_on_error W response s)) = self s) /\
  (forall calls, self (snd (_test_spam_calls W calls s)) = self s).
Proof.
  split; [intros url params; apply get_cases|].
  split; [reflexivity|].
  split.
  { intros query. rewrite executions_zql_steps.
    destruct (get_cases W (server (self s) ++ ZQL_PATH ++ query) None s)
      as [Hself _].
    destruct (get W _ None s) as [[[r|]|e] s1]; cbn in Hself |- *;
      try exact Hself.
    unfold response_json. destruct (json r); exact Hself. }
  split; [reflexivity|].
  split; [apply check_connection_frame|].
  split.
  { intros response. unfold raise_on_error, bind, lift, ret, py_str_in_bytes.
    destruct (status_code response =? 200); reflexivity. }
  intros calls. unfold _test_spam_calls, bind, get_self, lift.
  destruct (py_format EXECUTIONS_URL _) as [url|e]; [|reflexivity].
  pose proof (spam_loop_self W url
                (Z.to_nat match calls with Some c => c | None => 200 end) [] s)
    as Hself.
  destruct (spam_loop W url _ [] s) as [[[|b failed]|e] s1]; exact Hself.
Qed.

(** X10.  The methods of the project cache never change server, timeout
    or session, and they send no HTTP request through the session; a
    cache that is loaded is returned by [projects] and kept as it is by
    [projects] and [project]. *)
Theorem cache_methods_keep_settings (W : World) (s : State) :
  same_settings (self s) (self (snd (_load_projects W s))) /\
  same_settings (self s) (self (snd (projects W s))) /\
  (forall n, same_settings (self s) (self (snd (project W n s)))) /\
  requested_urls (history (snd (projects W s))) = requested_urls (history s) /\
  (forall l,
      _projects (self s) = Some l ->
      _projects (self (snd (projects W s))) = Some l /\
      (forall n, _projects (self (snd (project W n s))) = Some l) /\
      fst (projects W s) = Ok (Some l)).
Proof.
  assert (same_settings (self s) (self (snd (_load_projects W s))) /\
          requested_urls (history (snd (_load_projects W s)))
          = requested_urls (history s)) as [Hload Hurls].
  { rewrite load_projects_steps; cbn zeta.
    destruct (jira_JIRA W _ _ _ _); [now repeat split|].
    destruct (jira_projects W _); now repeat split. }
  assert (same_settings (self s) (self (snd (projects W s))) /\
          requested_urls (history (snd (projects W s)))
          = requested_urls (history s)) as [Hprojects Hurls'].
  { unfold projects, bind, get_self, ret.
    destruct (_projects (self s)); [now repeat split|].
    destruct (_load_projects W s) as [[[]|e] s1]; cbn in *; now split. }
  split; [exact Hload|].
  split; [exact Hprojects|].
  split.
  { intros n. unfold project, bind.
    destruct (projects W s) as [[[l|]|e] s1]; cbn in *; try exact Hprojects.
    destruct (filter _ l) as [|p [|q rest]]; exact Hprojects. }
  split; [exact Hurls'|].
  intros l Hl. split; [|split].
  - now rewrite (projects_memoized W s l Hl).
  - intros n. rewrite (project_steps W n s l Hl).
    destruct (filter (named n) l) as [|p [|q rest]]; exact Hl.
  - now rewrite (projects_memoized W s l Hl).
Qed.

Lemma cache_methods_keep_settings_witness :
  let W := growing_world resp_ok jira_projects0 (JiraProject.mk "NEW" 1) in
  _projects (self (snd (projects W state_loaded))) = Some projects0 /\
  _projects (self (snd (project W "NEW" state_loaded))) = Some projects0.
Proof.
  intros W.
  destruct (cache_methods_keep_settings W state_loaded) as (_ & _ & _ & _ & H).
  destruct (H projects0 eq_refl) as (H1 & H2 & _).
  split; [exact H1 | exact (H2 "NEW")].
Defined.

(** ** Loading the projects *)

Lemma load_projects_success
    (W : World) (s : State) (found : list JiraProject.t) :
  jira_JIRA W (history s) (server (self s)) (auth (_session (self s)))
            (timeout (self s)) = None ->
  jira_projects W (JiraOpen (server (self s)) (auth (_session (self s)))
                            (timeout (self s)) :: history s) = Ok found ->
  _load_projects W s
  = (Ok tt,
     {| self := {| server := server (self s);
                   timeout := timeout (self s);
                   _session := _session (self s);
                   _projects :=
                     Some (map (as_project (_session (self s))) found) |};
        history := JiraClose :: JiraProjects
                     :: JiraOpen (server (self s)) (auth (_session (self s)))
                                 (timeout (self s)) :: history s |}).
Proof.
  intros Hopen Hlist.
  rewrite load_projects_steps; cbn zeta. rewrite Hopen.
  cbn [history record]. now rewrite Hlist.
Qed.

(** X11.  [_load_projects] has no guard of its own: whenever the JIRA
    session opens and the listing succeeds, it makes one more discovery
    call and replaces the cache, loaded or not, with one [Project] per
    listed project, in the listed order, named by the JIRA key, carrying
    the listed id and the client's session; then it closes the JIRA
    session. *)
Theorem load_projects_replaces_the_cache
    (W : World) (s : State) (found : list JiraProject.t) :
  let z := self s in
  let opened := JiraOpen (server z) (auth (_session z)) (timeout z) in
  jira_JIRA W (history s) (server z) (auth (_session z)) (timeout z) = None ->
  jira_projects W (opened :: history s) = Ok found ->
  let after := snd (_load_projects W s) in
  fst (_load_projects W s) = Ok tt /\
  _projects (self after) = Some (map (as_project (_session z)) found) /\
  (forall l,
      _projects (self after) = Some l ->
      map Project.name l = keys found /\
      map Project.id_ l = map JiraProject.id found /\
      Forall (fun p => Project.session p = _session z) l) /\
  history after = JiraClose :: JiraProjects :: opened :: history s /\
  discovery_calls (history after) = S (discovery_calls (history s)).
Proof.
  intros z opened Hopen Hlist after; subst after.
  rewrite load_projects_steps; cbn zeta. fold z. rewrite Hopen.
  cbn [history record]. fold opened. rewrite Hlist. cbn.
  split; [reflexivity|].
  split; [reflexivity|].
  split; [|split; reflexivity].
  intros l [= <-].
  unfold keys. rewrite !map_map. cbn.
  repeat split; try reflexivity.
  apply Forall_forall. intros p Hp.
  apply in_map_iff in Hp as (x & <- & _). reflexivity.
Qed.

Lemma load_projects_replaces_the_cache_witness :
  let W := growing_world resp_ok jira_projects0 (JiraProject.mk "NEW" 1) in
  _projects (self (snd (_load_projects W state_loaded)))
  = Some (as_project (_session (self state0)) (JiraProject.mk "NEW" 1) :: projects0) /\
  discovery_calls (history (snd (_load_projects W state_loaded))) = 2%nat.
Proof.
  intros W.
  destruct (load_projects_replaces_the_cache W state_loaded
              (JiraProject.mk "NEW" 1 :: jira_projects0) eq_refl eq_refl)
    as (_ & Hcache & _ & _ & Hcalls).
  split; [exact Hcache | exact Hcalls].
Defined.

(** X12.  When the JIRA session opened and the listing raises,
    [_load_projects] raises that exception at once: the client keeps its
    cache as it was and the JIRA session that was opened is not
    closed. *)
Theorem load_projects_listing_failure_skips_close
    (W : World) (s : State) (e : py_exn) :
  let z := self s in
  let opened := JiraOpen (server z) (auth (_session z)) (timeout z) in
  jira_JIRA W (history s) (server z) (auth (_session z)) (timeout z) = None ->
  jira_projects W (opened :: history s) = Raise e ->
  fst (_load_projects W s) = Raise e /\
  self (snd (_load_projects W s)) = self s /\
  history (snd (_load_projects W s)) = JiraProjects :: opened :: history s /\
  jira_closes (history (snd (_load_projects W s))) = jira_closes (history s).
Proof.
  intros z opened Hopen Hlist.
  rewrite load_projects_steps; cbn zeta. fold z. rewrite Hopen.
  cbn [history record]. fold opened. rewrite Hlist.
  repeat split.
Qed.

Lemma load_projects_listing_failure_skips_close_witness :
  let W := flaky_world resp_ok jira_projects0 in
  fst (_load_projects W state0) = Raise (JIRAError (Some 503) None) /\
  jira_closes (history (snd (_load_projects W state0))) = 0%nat.
Proof.
  intros W.
  destruct (load_projects_listing_failure_skips_close W state0
              (JIRAError (Some 503) None) eq_refl eq_refl)
    as (Hres & _ & _ & Hcloses).
  split; [exact Hres | exact Hcloses].
Defined.

(** X13.  A read of the project list that raises started from the
    uninitialized cache and leaves it uninitialized, with the client
    otherwise unchanged; [project] raises the same exception (not the
    [ValueError] of a failed lookup); and the next read opens a JIRA
    session again, so a failed discovery is retried by the next
    access. *)
Theorem failed_read_leaves_the_cache_unloaded
    (W : World) (s s1 : State) (e : py_exn) :
  projects W s = (Raise e, s1) ->
  _projects (self s) = None /\
  self s1 = self s /\
  (forall n, project W n s = (Raise e, s1)) /\
  exists later,
    history (snd (projects W s1))
    = (later ++ JiraOpen (server (self s)) (auth (_session (self s)))
                         (timeout (self s)) :: history s1)%list.
Proof.
  intros H.
  assert (_projects (self s) = None) as Hnone.
  { destruct (_projects (self s)) as [l|] eqn:E; [|reflexivity].
    rewrite (projects_memoized W s l E) in H. discriminate. }
  assert (self s1 = self s) as Hself.
  { revert H. unfold projects, bind, get_self, ret.
    rewrite Hnone, load_projects_steps; cbn zeta.
    destruct (jira_JIRA W _ _ _ _); [now intros [= _ <-]|].
    destruct (jira_projects W _); [discriminate | now intros [= _ <-]]. }
  split; [exact Hnone|].
  split; [exact Hself|].
  split.
  { intros n. unfold project, bind. now rewrite H. }
  assert (_projects (self s1) = None) as Hnone1 by now rewrite Hself.
  destruct (load_projects_opens_with_server W s1) as [later Hlater].
  rewrite Hself in Hlater.
  unfold projects, bind, get_self, ret. rewrite Hnone1.
  destruct (_load_projects W s1) as [[[]|e1] s2]; cbn in *; now exists later.
Qed.

Lemma failed_read_leaves_the_cache_unloaded_witness :
  let W := flaky_world resp_ok jira_projects0 in
  let s1 := snd (projects W state0) in
  fst (projects W state0) = Raise (JIRAError (Some 503) None) /\
  project W "FOO" state0 = (Raise (JIRAError (Some 503) None), s1) /\
  fst (projects W s1) = Ok (Some projects0) /\
  discovery_calls (history (snd (projects W s1))) = 2%nat.
Proof.
  intros W s1.
  destruct (failed_read_leaves_the_cache_unloaded W state0 s1
              (JIRAError (Some 503) None) eq_refl) as (_ & _ & Hproject & _).
  split; [reflexivity|].
  split; [exact (Hproject "FOO")|].
  split; reflexivity.
Defined.

(** ** Looking up, from any state *)

(** X14.  Whenever [project n] returns, from a loaded or an unloaded
    client, the project it returns has the name [n], belongs to the
    cache the client now holds, and is the only project of that cache
    with this name. *)
Theorem project_result_is_the_named_one
    (W : World) (n : string) (s s1 : State) (p : Project.t) :
  project W n s = (Ok p, s1) ->
  Project.name p = n /\
  exists l,
    _projects (self s1) = Some l /\ In p l /\ filter (named n) l = [p].
Proof.
  unfold project, bind.
  destruct (projects W s) as [[a|e] s'] eqn:E; [|discriminate].
  destruct (projects_returns_loaded W _ _ _ E) as (l & -> & Hl).
  change (fun x => String.eqb (Project.name x) n) with (named n).
  destruct (filter (named n) l) as [|q [|q' rest]] eqn:F; try discriminate.
  intros [= <- <-].
  assert (In q (filter (named n) l)) as Hin by (rewrite F; now left).
  apply filter_In in Hin as [Hin Hname].
  split; [now apply String.eqb_eq|].
  exists l. now repeat split.
Qed.

Lemma project_result_is_the_named_one_witness :
  let W := constant_world resp_ok jira_projects0 in
  Project.name (Project.mk "foo" 10205 (_session (self state0))) = "foo" /\
  exists l,
    _projects (self state_loaded) = Some l /\
    In (Project.mk "foo" 10205 (_session (self state0))) l /\
    filter (named "foo") l = [Project.mk "foo" 10205 (_session (self state0))].
Proof.
  intros W.
  apply (project_result_is_the_named_one W "foo" state0 state_loaded).
  reflexivity.
Defined.

Lemma filter_unique_key (session : Session) (found : list JiraProject.t)
    (x : JiraProject.t) :
  NoDup (keys found) ->
  In x found ->
  filter (named (JiraProject.key x)) (map (as_project session) found)
  = [as_project session x].
Proof.
  induction found as [|a found IH]; intros Hnd Hin; [contradiction|].
  apply NoDup_cons_iff in Hnd as [Hfresh Hnd].
  cbn [map filter]. unfold named at 1. cbn [as_project Project.name].
  destruct Hin as [-> | Hin].
  - rewrite String.eqb_refl. f_equal.
    apply filter_no_match. intros q Hq.
    apply in_map_iff in Hq as (y & <- & Hy). cbn.
    intros E. apply Hfresh. rewrite <- E. now apply in_map.
  - destruct (String.eqb_spec (JiraProject.key a) (JiraProject.key x)) as [E|_].
    + exfalso. apply Hfresh. rewrite E. now apply in_map.
    + now apply IH.
Qed.

(** X15.  Discovery and lookup compose: on a client whose cache is
    uninitialized, when JIRA lists projects with pairwise distinct keys,
    [project] called with the key of any listed project returns the
    [Project] built from it (that key as name, its id, the client's
    session), after exactly one discovery call; called with a name that
    is no listed key it raises [ValueError]. *)
Theorem project_finds_every_listed_key
    (W : World) (s : State) (found : list JiraProject.t) :
  let z := self s in
  let opened := JiraOpen (server z) (auth (_session z)) (timeout z) in
  _projects z = None ->
  jira_JIRA W (history s) (server z) (auth (_session z)) (timeout z) = None ->
  jira_projects W (opened :: history s) = Ok found ->
  NoDup (keys found) ->
  (forall x,
      In x found ->
      fst (project W (JiraProject.key x) s) = Ok (as_project (_session z) x) /\
      discovery_calls (history (snd (project W (JiraProject.key x) s)))
      = S (discovery_calls (history s))) /\
  (forall n, ~ In n (keys found) -> fst (project W n s) = Raise ValueError).
Proof.
  intros z opened Hnone Hopen Hlist Hnd.
  assert (projects W s
          = (Ok (Some (map (as_project (_session z)) found)),
             snd (_load_projects W s))) as Hread.
  { unfold projects, bind, get_self, ret. fold z. rewrite Hnone.
    now rewrite (load_projects_success W s found Hopen Hlist). }
  assert (discovery_calls (history (snd (_load_projects W s)))
          = S (discovery_calls (history s))) as Hcalls.
  { now rewrite (load_projects_success W s found Hopen Hlist). }
  split.
  - intros x Hx. unfold project, bind. rewrite Hread.
    change (fun y => String.eqb (Project.name y) (JiraProject.key x))
      with (named (JiraProject.key x)).
    rewrite (filter_unique_key (_session z) found x Hnd Hx).
    split; [reflexivity | exact Hcalls].
  - intros n Hn. unfold project, bind. rewrite Hread.
    change (fun y => String.eqb (Project.name y) n) with (named n).
    rewrite filter_no_match; [reflexivity|].
    intros q Hq. apply in_map_iff in Hq as (y & <- & Hy). cbn.
    intros E. apply Hn. rewrite <- E. now apply in_map.
Qed.

Lemma project_finds_every_listed_key_witness :
  let W := constant_world resp_ok jira_projects0 in
  fst (project W "BAR" state0)
  = Ok (Project.mk "BAR" 10300 (_session (self state0))) /\
  discovery_calls (history (snd (project W "BAR" state0))) = 1%nat /\
  fst (project W "bar" state0) = Raise ValueError.
Proof.
  intros W.
  assert (NoDup (keys jira_projects0)) as Hnd.
  { repeat constructor; cbn; intuition discriminate. }
  destruct (project_finds_every_listed_key W state0 jira_projects0
              eq_refl eq_refl eq_refl Hnd) as [Hlisted Hother].
  destruct (Hlisted (JiraProject.mk "BAR" 10300)) as [Hres Hcalls].
  { cbn. auto. }
  split; [exact Hres|].
  split; [exact Hcalls|].
  apply Hother. cbn. intuition discriminate.
Defined.

(** ** [put] and the method [raise_on_error] *)

(** X16.  [put] hands back whatever response the transport gives,
    without any check: a response on which the library check would
    raise, and on which [get] does raise, is returned by [put] as an
    ordinary result, and the library check is not called. *)
Theorem put_returns_what_get_rejects
    (W : World) (url : string) (data : json_value) (s : State)
    (r : Response) (e : py_exn) :
  requests_put W (history s) (_session (self s)) url data (timeout (self s))
  = Ok r ->
  jira_raise_on_error W (Some r) = Some e ->
  fst (put W url data s) = Ok r /\
  lib_checks (history (snd (put W url data s))) = lib_checks (history s) /\
  requested_urls (history (snd (put W url data s)))
  = (requested_urls (history s) ++ [url])%list /\
  (forall params,
      requests_get W (history s) (_session (self s)) url params
                   (timeout (self s)) = Ok r ->
      fst (get W url params s) = Raise e).
Proof.
  intros Hput Hlib.
  unfold put, session_put. cbn. rewrite Hput.
  repeat split.
  intros params Hget. now apply get_propagates_lib_error with (r := r).
Qed.

Lemma put_returns_what_get_rejects_witness :
  let W := constant_world resp_500 [] in
  fst (put W "u" (JDict []) state0) = Ok resp_500 /\
  fst (get W "u" None state0) = Raise (JIRAError (Some 500) (Some resp_500)).
Proof.
  intros W.
  destruct (put_returns_what_get_rejects W "u" (JDict []) state0 resp_500
              (JIRAError (Some 500) (Some resp_500)) eq_refl eq_refl)
    as (Hput & _ & _ & Hget).
  split; [exact Hput | exact (Hget None eq_refl)].
Defined.

(** X17.  The method [raise_on_error] never hands the library check a
    response with a rewritten status.  For a status other than 200 it
    is the library check on the response as given; for status 200 the
    membership test of the [str] marker in the [bytes] body raises
    [TypeError] before the library check is reached, whatever the body
    contains. *)
Theorem raise_on_error_never_rewrites
    (W : World) (response : Response) (s : State) :
  (status_code response = 200 ->
   raise_on_error W response s = (Raise TypeError, s)) /\
  (status_code response <> 200 ->
   raise_on_error W response s = lib_raise_on_error W (Some response) s) /\
  (lib_checks (history (snd (raise_on_error W response s)))
   = lib_checks (history s)
   \/
   lib_checks (history (snd (raise_on_error W response s)))
   = (lib_checks (history s) ++ [Some response])%list).
Proof.
  split; [apply raise_on_error_200_is_TypeError|].
  split; [apply raise_on_error_other_status|].
  destruct (Z.eq_dec (status_code response) 200) as [E|E].
  - left. now rewrite (raise_on_error_200_is_TypeError W response s E).
  - right. now rewrite (raise_on_error_other_status W response s E).
Qed.

Lemma raise_on_error_never_rewrites_witness :
  let W := constant_world resp_ok [] in
  raise_on_error W resp_no_permission state0 = (Raise TypeError, state0) /\
  raise_on_error W resp_401 state0
  = (Raise (JIRAError (Some 401) (Some resp_401)),
     record (LibRaiseOnError (Some resp_401)) state0).
Proof.
  intros W. split.
  - apply (raise_on_error_never_rewrites W resp_no_permission state0).
    reflexivity.
  - destruct (raise_on_error_never_rewrites W resp_401 state0) as (_ & H & _).
    rewrite H; [reflexivity | discriminate].
Defined.

(** ** The diagnostic helper *)

Lemma format_spam_url (srv : string) :
  py_format EXECUTIONS_URL
    [srv; py_str 10204; py_str 20418; py_str 3447; py_str 330]
  = Ok (srv ++ "/rest/zapi/latest/execution/?projectId=10204&versionId=20418&cycleId=3447&folderId=330")%string.
Proof.
  reflexivity.
Qed.

(** X18.  [_test_spam_calls] never gets past its first call.  Asked for
    no call (a count of zero or less) it returns without any request;
    asked for one or more, it sends exactly one GET, to the executions
    endpoint of the client's server with the ids written in the method,
    and then raises: the exception of [get] when [get] raised, and
    otherwise, [get] having returned [None], the [AttributeError] of
    reading [status_code] on it. *)
Theorem test_spam_calls_stops_at_the_first_call
    (W : World) (calls : Z) (s : State) :
  (calls <= 0 -> _test_spam_calls W (Some calls) s = (Ok tt, s)) /\
  (0 < calls ->
   (exists e, fst (_test_spam_calls W (Some calls) s) = Raise e) /\
   (fst (get W (server (self s) ++ "/rest/zapi/latest/execution/?projectId=10204&versionId=20418&cycleId=3447&folderId=330") None s) = Ok None ->
    fst (_test_spam_calls W (Some calls) s)
    = Raise (AttributeError "NoneType" "status_code")) /\
   requested_urls (history (snd (_test_spam_calls W (Some calls) s)))
   = (requested_urls (history s)
      ++ [(server (self s) ++ "/rest/zapi/latest/execution/?projectId=10204&versionId=20418&cycleId=3447&folderId=330")%string])%list /\
   (forall e,
       fst (get W (server (self s) ++ "/rest/zapi/latest/execution/?projectId=10204&versionId=20418&cycleId=3447&folderId=330") None s) = Raise e ->
       fst (_test_spam_calls W (Some calls) s) = Raise e)).
Proof.
  split.
  - intros Hle. unfold _test_spam_calls, bind, get_self, lift.
    rewrite format_spam_url.
    replace (Z.to_nat calls) with O by lia. reflexivity.
  - intros Hpos. unfold _test_spam_calls, bind, get_self, lift.
    rewrite format_spam_url.
    destruct (Z.to_nat calls) as [|n] eqn:En; [lia|].
    cbn [spam_loop]. unfold bind.
    pose proof (get_requested_urls W
                  (server (self s) ++ "/rest/zapi/latest/execution/?projectId=10204&versionId=20418&cycleId=3447&folderId=330")
                  None s) as Hurls.
    destruct (get W _ None s) as [[v|e] s1] eqn:E.
    + apply get_returns_None in E as ->. cbn in *.
      split; [eexists; reflexivity|]. split; [reflexivity|].
      split; [exact Hurls | discriminate].
    + cbn in *.
      split; [eexists; reflexivity|]. split; [discriminate|].
      split; [exact Hurls | now intros e0 [= ->]].
Qed.

Lemma test_spam_calls_stops_at_the_first_call_witness :
  let W := constant_world resp_ok [] in
  _test_spam_calls W (Some 0) state0 = (Ok tt, state0) /\
  fst (_test_spam_calls W (Some 200) state0)
  = Raise (AttributeError "NoneType" "status_code") /\
  requested_urls (history (snd (_test_spam_calls W (Some 200) state0)))
  = ["https://jira.example.com/rest/zapi/latest/execution/?projectId=10204&versionId=20418&cycleId=3447&folderId=330"].
Proof.
  intros W.
  destruct (test_spam_calls_stops_at_the_first_call W 0 state0) as [Hzero _].
  destruct (test_spam_calls_stops_at_the_first_call W 200 state0) as [_ Hmany].
  destruct (Hmany ltac:(lia)) as (_ & Hattr & Hurls & _).
  split; [apply Hzero; lia|].
  split; [apply Hattr; reflexivity | exact Hurls].
Defined.

(** ** Construction, then discovery *)

(** X19.  The first read of the project list on a client just built
    opens its JIRA session with the settings the constructor stored:
    the [server] argument, the [basic_auth] pair and the [timeout]
    argument, each replaced by the configured default ([SERVER], the
    pair of [USER] and [PASSWORD], [TIMEOUT]) when left out. *)
Theorem discovery_uses_the_constructor_settings
    (cfg : Config) (W : World)
    (server_arg : option string) (basic_auth : option (string * string))
    (verify_arg : option bool) (timeout_arg : option Z) (h : list Event) :
  let built :=
    snd (__init__ cfg W server_arg basic_auth verify_arg timeout_arg h) in
  exists later,
    history (snd (projects W built))
    = (later
       ++ JiraOpen (match server_arg with Some v => v | None => SERVER cfg end)
                   (match basic_auth with
                    | Some credentials => credentials
                    | None => (USER cfg, PASSWORD cfg)
                    end)
                   (match timeout_arg with Some t => t | None => TIMEOUT cfg end)
       :: history built)%list.
Proof.
  intros built; subst built. unfold __init__.
  set (s0 := {| self := new_self cfg server_arg basic_auth verify_arg timeout_arg;
                history := h |}).
  destruct (check_connection_frame W s0) as [Hself _].
  remember (snd (_check_connection W s0)) as s1 eqn:Hs1. clear Hs1.
  destruct (load_projects_opens_with_server W s1) as [later Hlater].
  rewrite Hself in Hlater.
  unfold s0, new_self in Hlater. cbn [self server timeout _session auth] in Hlater.
  assert (_projects (self s1) = None) as Hnone by now rewrite Hself.
  unfold projects, bind, get_self, ret. rewrite Hnone.
  destruct (_load_projects W s1) as [[[]|e] s2]; now exists later.
Qed.
